(** * Empirical CDF animation (src/cdf_animation.py)

    A shallow embedding of the Streamlit script [cdf_animation.py]: the
    synthetic data generator [generate_evolving_data], the empirical CDF
    [empirical_cdf] and the animation loop that runs when the start button
    was pressed.

    Conventions of the embedding.
    - A float64 is an exact rational ([Q]); numeric equality is [==].
      Rounding, infinities, NaN and the sign of zero are not represented:
      what is proved of a computed number is proved of exact arithmetic.
      (The module [binary64] recomputes the cumulative probabilities, for
      the sample sizes of the app, and the quartile markers with the
      kernel's binary64 numbers.)
    - A one-dimensional numpy array is a [list Q], a Python [dict] keyed by
      year is a [gmap Z (list Q)].
    - A Python call either returns or raises: [outcome].  Code that also
      reads or writes state (numpy's global random state, the Streamlit
      page) lives in the state-and-exception monad [py].
    - What the script calls in numpy is embedded in the modules [np] and
      [np.random], after numpy's documented behaviour; [mt19937] is the
      generator behind [np.random.seed].
    - The script runs under Streamlit's script runner, which ends a run at
      the next Streamlit command once a widget was clicked: [st]. *)

From Stdlib Require Import ZArith QArith Qminmax Qround Lqa Lia Floats Uint63.
From stdpp Require Import base list sorting gmap strings pretty.

Local Open Scope Q_scope.

(** ** Python *)

Inductive exception : Type :=
  | ValueError (msg : string)
  | IndexError (msg : string)
  | KeyError (key : Z)
  | RerunException.

Inductive outcome (A : Type) : Type :=
  | Returned (a : A)
  | Raised (e : exception).
Arguments Returned {A} a.
Arguments Raised {A} e.

#[global] Instance outcome_ret : MRet outcome := fun _ a => Returned a.
#[global] Instance outcome_bind : MBind outcome := fun _ _ f m =>
  match m with
  | Returned a => f a
  | Raised e => Raised e
  end.

(** Code with state [S]: the state is threaded through, and survives an
    exception (what was drawn or displayed before the raise stays so). *)
Definition py (S A : Type) : Type := S -> outcome A * S.

#[global] Instance py_ret {S} : MRet (py S) := fun _ a s => (Returned a, s).
#[global] Instance py_bind {S} : MBind (py S) := fun _ _ f m s =>
  match m s with
  | (Returned a, s') => f a s'
  | (Raised e, s') => (Raised e, s')
  end.

Definition lift {S A} (o : outcome A) : py S A := fun s => (o, s).
Definition raise {S A} (e : exception) : py S A := fun s => (Raised e, s).

(** [len(l)] *)
Definition len {A} (l : list A) : Z := Z.of_nat (length l).

(** [range(a, b)] *)
Definition range (a b : Z) : list Z := seqZ a (b - a).

(** [enumerate(l)] *)
Definition enumerate {A} (l : list A) : list (nat * A) := zip (seq 0 (length l)) l.

(** [l[i]] on a list: a negative index counts from the end. *)
Definition getitem_list {A} (l : list A) (i : Z) : outcome A :=
  let j := if (i <? 0)%Z then (len l + i)%Z else i in
  if (j <? 0)%Z then Raised (IndexError "index out of range")
  else match l !! Z.to_nat j with
       | Some x => Returned x
       | None => Raised (IndexError "index out of range")
       end.

(** [d[k]] on a dict. *)
Definition getitem (d : gmap Z (list Q)) (k : Z) : outcome (list Q) :=
  match d !! k with
  | Some v => Returned v
  | None => Raised (KeyError k)
  end.

(** Loops.  [for_acc] threads the local variable the body assigns to;
    [for_in] is a loop whose body may [break]. *)
Fixpoint for_acc {S A B} (l : list A) (body : B -> A -> py S B) (acc : B) : py S B :=
  match l with
  | [] => mret acc
  | x :: l' => acc' ← body acc x; for_acc l' body acc'
  end.

Inductive control : Type := Continue | Break.

Fixpoint for_in {S A} (l : list A) (body : A -> py S control) : py S unit :=
  match l with
  | [] => mret tt
  | x :: l' =>
      c ← body x;
      match c with
      | Break => mret tt
      | Continue => for_in l' body
      end
  end.

(** [x < y] on floats. *)
Definition Qltb (x y : Q) : bool := negb (Qle_bool y x).

(** ** numpy *)

Module np.

(** [np.sort]: the ascending rearrangement of the array. *)
Fixpoint insert (x : Q) (l : list Q) : list Q :=
  match l with
  | [] => [x]
  | y :: l' => if Qle_bool x y then x :: y :: l' else y :: insert x l'
  end.

Definition sort (a : list Q) : list Q := foldr insert [] a.

(** [np.arange(start, stop)] on integers. *)
Definition arange (start stop : Z) : list Z := seqZ start (stop - start).

(** [a / n], an integer array divided by an integer: true division,
    element by element. *)
Definition true_divide (a : list Z) (n : Z) : list Q :=
  (fun k => inject_Z k / inject_Z n) <$> a.

(** [c * a], [a + c] with a scalar [c], and [a + b] on arrays of one
    shape (the generator only adds arrays of length [n_obs]). *)
Definition scale (c : Q) (a : list Q) : list Q := Qmult c <$> a.
Definition shift (a : list Q) (c : Q) : list Q := (fun x => x + c) <$> a.
Definition add (a b : list Q) : list Q := zip_with Qplus a b.

(** [np.min], [np.max]: reductions without identity, refused on an empty
    array. *)
Definition min (a : list Q) : outcome Q :=
  match a with
  | [] => Raised (ValueError "zero-size array to reduction operation minimum which has no identity")
  | x :: a' => Returned (foldl Qmin x a')
  end.

Definition max (a : list Q) : outcome Q :=
  match a with
  | [] => Raised (ValueError "zero-size array to reduction operation maximum which has no identity")
  | x :: a' => Returned (foldl Qmax x a')
  end.

(** [np.concatenate] of a list of arrays. *)
Definition concatenate (arrays : list (list Q)) : outcome (list Q) :=
  match arrays with
  | [] => Raised (ValueError "need at least one array to concatenate")
  | _ => Returned (concat arrays)
  end.

(** [np.percentile(a, q)] with the default method, linear interpolation:
    the value at the virtual index [(n - 1) * q / 100] of the sorted array,
    interpolated between the two neighbouring entries.  At or past the last
    position both neighbours are the last entry (index [-1]).  On an empty
    array that index does not exist and the call raises (numpy before 1.22
    returns NaN instead; nothing below rests on the empty case).

    The difference [b - a] and the products of the interpolation are exact
    here.  In float64 they round, and [b - a] overflows to an infinity when
    the two neighbours are more than the largest float64 apart: what is
    proved of [lerp] below is proved of the exact interpolation.
    [binary64.lerp] is the interpolation with the kernel's binary64
    numbers. *)
Definition lerp (a b t : Q) : Q :=
  let diff_b_a := b - a in
  if Qle_bool (1 # 2) t then b - diff_b_a * (1 - t) else a + diff_b_a * t.

Definition quantile (arr : list Q) (q : Q) : outcome Q :=
  let values_count := inject_Z (len arr) in
  let virtual_index := (values_count - 1) * q in
  let '(previous_index, next_index) :=
    if Qle_bool (values_count - 1) virtual_index then ((-1)%Z, (-1)%Z)
    else if Qltb virtual_index 0 then (0%Z, 0%Z)
    else (Qfloor virtual_index, (Qfloor virtual_index + 1)%Z) in
  let sorted := sort arr in
  previous ← getitem_list sorted previous_index;
  next ← getitem_list sorted next_index;
  let gamma := virtual_index - inject_Z previous_index in
  mret (lerp previous next gamma).

Definition percentile (a : list Q) (q : list Q) : outcome (list Q) :=
  if forallb (fun p => Qle_bool 0 p && Qle_bool p 100) q
  then mapM (fun p => quantile a (p / 100)) q
  else Raised (ValueError "Percentiles must be in the range [0, 100]").

(** [np.mean] and [np.std] (the population deviation).  On an empty array
    both give NaN, with a warning and without raising.  The square root is
    not a rational function: it is the parameter [sqrt].  The sums are
    exact: the infinities and the NaN that a float64 sum gives when it
    overflows are not represented, and nothing below rests on the mean or
    the deviation of an array that is not empty being a number. *)
Inductive number : Type :=
  | finite (q : Q)
  | nan.

Definition sum (a : list Q) : Q := foldl Qplus 0 a.

Definition mean (a : list Q) : number :=
  match a with
  | [] => nan
  | _ => finite (sum a / inject_Z (len a))
  end.

Definition std (sqrt : Q -> Q) (a : list Q) : number :=
  match a with
  | [] => nan
  | _ =>
      let m := sum a / inject_Z (len a) in
      finite (sqrt (sum ((fun x => (x - m) * (x - m)) <$> a) / inject_Z (len a)))
  end.

(** [np.random]: the legacy global [RandomState].  What the script needs
    of it: reseeding, the next uniform double of [[0, 1)] and the next
    standard normal deviate.  Both draws are total functions of the state:
    the rejection loop behind a normal deviate is taken to end. *)
Module random.

Record RandomState : Type := {
  state : Type;
  init : Z -> state;
  random_sample : state -> Q * state;
  standard_normal : state -> Q * state
}.

(** Every uniform double lies in [[0, 1)]. *)
Definition in_unit_interval (G : RandomState) : Prop :=
  forall s, 0 <= fst (random_sample G s) /\ fst (random_sample G s) < 1.

Section Draws.
Context (G : RandomState).

(** [np.random.seed(n)] *)
Definition seed (n : Z) : py (state G) unit :=
  fun _ => (Returned tt, init G n).

Definition next_double : py (state G) Q :=
  fun s => let '(d, s') := random_sample G s in (Returned d, s').

Definition gauss : py (state G) Q :=
  fun s => let '(g, s') := standard_normal G s in (Returned g, s').

Fixpoint gauss_n (n : nat) : py (state G) (list Q) :=
  match n with
  | O => mret []
  | S n' => g ← gauss; gs ← gauss_n n'; mret (g :: gs)
  end.

(** [np.random.uniform(low, high)] *)
Definition uniform (low high : Q) : py (state G) Q :=
  d ← next_double; mret (low + (high - low) * d).

(** [np.random.normal(loc, scale)]: one draw. *)
Definition normal (loc scale : Q) : py (state G) Q :=
  if Qltb scale 0 then raise (ValueError "scale < 0")
  else g ← gauss; mret (loc + scale * g).

(** [np.random.normal(loc, scale, size)]: an array of [size] draws. *)
Definition normal_array (loc scale : Q) (size : Z) : py (state G) (list Q) :=
  if Qltb scale 0 then raise (ValueError "scale < 0")
  else if (size <? 0)%Z then raise (ValueError "negative dimensions are not allowed")
  else gs ← gauss_n (Z.to_nat size); mret ((fun g => loc + scale * g) <$> gs).

End Draws.
End random.

End np.

(** ** The generator behind [np.random.seed]: MT19937

    numpy's legacy [RandomState] is the Mersenne Twister with [init_genrand]
    seeding; a double takes two 32-bit outputs, and a normal deviate comes
    from the polar method, which makes two deviates of one accepted pair and
    keeps the second for the next call.  The factor
    [sqrt(-2 * log(r2) / r2)] of the polar method is not a rational function:
    it is the parameter [polar_factor].  numpy's rejection loop has no bound;
    here a draw gives up, with deviate 0, after [max_rejections] rejected
    pairs in a row.  The key is an array of [uint32_t]: an entry is read
    through [u32]. *)

Module mt19937.

Definition u32 (x : Z) : Z := Z.land x 0xffffffff.
Definition is_u32 (x : Z) : Prop := (0 <= x < 2 ^ 32)%Z.

Definition N : nat := 624.
Definition M : nat := 397.
Definition MATRIX_A : Z := 0x9908b0df.
Definition UPPER_MASK : Z := 0x80000000.
Definition LOWER_MASK : Z := 0x7fffffff.

Record mt19937_state : Type := {
  key : list Z;
  pos : nat;
  has_gauss : bool;
  gauss : Q
}.

Fixpoint seed_loop (n : nat) (pos : Z) (seed : Z) : list Z :=
  match n with
  | O => []
  | S n' =>
      seed :: seed_loop n' (pos + 1)
                (u32 (1812433253 * Z.lxor seed (Z.shiftr seed 30) + pos + 1))
  end.

Definition mt19937_seed (seed : Z) : mt19937_state :=
  {| key := seed_loop N 0 (u32 seed); pos := N; has_gauss := false; gauss := 0 |}.

(** One step of [mt19937_gen]: [key[i] = key[j] ^ (y >> 1) ^ (-(y & 1) & MATRIX_A)]
    with [y] made of the top bit of [key[i]] and the low bits of [key[i1]]. *)
Definition twist (k : list Z) (i i1 j : nat) : list Z :=
  let y := Z.lor (Z.land (k !!! i) UPPER_MASK) (Z.land (k !!! i1) LOWER_MASK) in
  <[i := Z.lxor (Z.lxor (k !!! j) (Z.shiftr y 1)) (if Z.odd y then MATRIX_A else 0)]> k.

Definition mt19937_gen (k : list Z) : list Z :=
  let k := foldl (fun k i => twist k i (i + 1) (i + M)) k (seq 0 (N - M)) in
  let k := foldl (fun k i => twist k i (i + 1) (i + M - N)) k (seq (N - M) (M - 1)) in
  twist k (N - 1) 0 (M - 1).

Definition mt19937_next (s : mt19937_state) : Z * mt19937_state :=
  let '(k, p) := if (pos s =? N)%nat then (mt19937_gen (key s), O) else (key s, pos s) in
  let y := u32 (k !!! p) in
  let y := Z.lxor y (Z.shiftr y 11) in
  let y := Z.lxor y (Z.land (Z.shiftl y 7) 0x9d2c5680) in
  let y := Z.lxor y (Z.land (Z.shiftl y 15) 0xefc60000) in
  let y := Z.lxor y (Z.shiftr y 18) in
  (y, {| key := k; pos := S p; has_gauss := has_gauss s; gauss := gauss s |}).

Definition mt19937_next_double (s : mt19937_state) : Q * mt19937_state :=
  let '(a, s) := mt19937_next s in
  let '(b, s) := mt19937_next s in
  (inject_Z (Z.shiftr a 5 * 67108864 + Z.shiftr b 6) / 9007199254740992, s).

Definition max_rejections : nat := 64.

Fixpoint polar_pair (fuel : nat) (s : mt19937_state) : option (Q * Q * Q * mt19937_state) :=
  match fuel with
  | O => None
  | S fuel' =>
      let '(d1, s) := mt19937_next_double s in
      let '(d2, s) := mt19937_next_double s in
      let x1 := 2 * d1 - 1 in
      let x2 := 2 * d2 - 1 in
      let r2 := x1 * x1 + x2 * x2 in
      if Qle_bool 1 r2 || Qeq_bool r2 0 then polar_pair fuel' s
      else Some (x1, x2, r2, s)
  end.

(** The bounded loop gives up where numpy's would go on. *)
Definition gives_up (s : mt19937_state) : bool :=
  match polar_pair max_rejections s with
  | Some _ => false
  | None => negb (has_gauss s)
  end.

Section Gauss.
Context (polar_factor : Q -> Q).

Definition legacy_gauss (s : mt19937_state) : Q * mt19937_state :=
  if has_gauss s then
    (gauss s, {| key := key s; pos := pos s; has_gauss := false; gauss := 0 |})
  else
    match polar_pair max_rejections s with
    | Some (x1, x2, r2, s') =>
        let f := polar_factor r2 in
        (f * x2, {| key := key s'; pos := pos s'; has_gauss := true; gauss := f * x1 |})
    | None => (0, s)
    end.

Definition legacy : np.random.RandomState :=
  {| np.random.state := mt19937_state;
     np.random.init := mt19937_seed;
     np.random.random_sample := mt19937_next_double;
     np.random.standard_normal := legacy_gauss |}.

End Gauss.
End mt19937.

(** ** The script *)

(** *** The generator (lines 26-52)

    The body of [generate_evolving_data].  The decorator [st.cache_data]
    keeps the value the body returned for given arguments and hands it out
    again; it is not part of the embedding. *)

Section Generator.
Context (G : np.random.RandomState).

Definition base_mean : Q := 50.
Definition base_std : Q := 15.

(** The body of the loop over [enumerate(years)], lines 37-50: [data] is the
    dict built so far, the result is the dict after [data[year] = values]. *)
Definition year_body (n_obs : Z) (trend_str vol : Q) (years : list Z)
    (data : gmap Z (list Q)) (iy : nat * Z) : py (np.random.state G) (gmap Z (list Q)) :=
  let '(i, year) := iy in
  jitter ← np.random.normal G 0 2;
  let year_mean := base_mean + trend_str * inject_Z (Z.of_nat i) + jitter in
  spread_jitter ← np.random.uniform G (-2) 2;
  let year_std := base_std * vol + spread_jitter in
  values ←
    (if (i =? 0)%nat then
       np.random.normal_array G year_mean year_std n_obs
     else
       prev_year ← lift (getitem_list years (Z.of_nat i - 1));
       prev_values ← lift (getitem data prev_year);
       noise ← np.random.normal_array G 0 year_std n_obs;
       mret (np.add (np.shift (np.scale 0.7 prev_values) (0.3 * year_mean)) noise));
  mret (<[year := values]> data).

Definition generate_evolving_data (n_obs : Z) (trend_str vol : Q)
    : py (np.random.state G) (gmap Z (list Q) * list Z) :=
  np.random.seed G 42;;
  let years := range 2010 2016 in
  data ← for_acc (enumerate years) (year_body n_obs trend_str vol years) ∅;
  mret (data, years).

End Generator.

(** *** The empirical CDF (lines 55-59) *)

Definition empirical_cdf (data : list Q) : outcome (list Q * list Q) :=
  let sorted_data := np.sort data in
  let n := len data in
  let y := np.true_divide (np.arange 1 (n + 1)) n in
  mret (sorted_data, y).

(** The cumulative probabilities once more, in binary64 arithmetic as numpy
    computes them: the integers 1 to [n], each converted and divided by [n]
    converted.  [cumulative_ok n] tells whether this sequence never
    decreases, starts at the quotient of 1 by [n] and ends at 1.0. *)
Module binary64.

Fixpoint arange (count : nat) (start : int) : list int :=
  match count with
  | O => []
  | S c => start :: arange c (start + 1)%uint63
  end.

Definition cumulative (n : nat) : list float :=
  let n_float := PrimFloat.of_uint63 (Uint63.of_nat n) in
  (fun k => PrimFloat.of_uint63 k / n_float)%float <$> arange n 1%uint63.

Fixpoint nondecreasing (l : list float) : bool :=
  match l with
  | a :: (b :: _) as l' => PrimFloat.leb a b && nondecreasing l'
  | _ => true
  end.

Definition cumulative_ok (n : nat) : bool :=
  let y := cumulative n in
  nondecreasing y
  && PrimFloat.eqb (List.hd 0%float y) (1 / PrimFloat.of_uint63 (Uint63.of_nat n))%float
  && PrimFloat.eqb (List.last y 0%float) 1%float.

(** [np.percentile] once more in binary64, operation by operation as
    numpy's linear method computes it, for arrays without NaN: the virtual
    index [(n - 1) * q], its floor, the two neighbours in the sorted array
    and their interpolation [_lerp], in which [b - a] may overflow. *)
Definition of_Z (k : Z) : float :=
  if (k <? 0)%Z then (- PrimFloat.of_uint63 (Uint63.of_Z (- k)))%float
  else PrimFloat.of_uint63 (Uint63.of_Z k).

Definition floor (f : float) : Z :=
  match Prim2SF f with
  | S754_finite s m e => Z.shiftl (if s then Z.neg m else Z.pos m) e
  | _ => 0%Z
  end.

Fixpoint insert (x : float) (l : list float) : list float :=
  match l with
  | [] => [x]
  | y :: l' => if PrimFloat.leb x y then x :: y :: l' else y :: insert x l'
  end.

Definition sort (a : list float) : list float := foldr insert [] a.

Definition min (a : list float) : outcome float :=
  match a with
  | [] => Raised (ValueError "zero-size array to reduction operation minimum which has no identity")
  | x :: a' => Returned (foldl (fun m z => if PrimFloat.ltb z m then z else m) x a')
  end.

Definition max (a : list float) : outcome float :=
  match a with
  | [] => Raised (ValueError "zero-size array to reduction operation maximum which has no identity")
  | x :: a' => Returned (foldl (fun m z => if PrimFloat.ltb m z then z else m) x a')
  end.

Definition lerp (a b t : float) : float :=
  let diff_b_a := (b - a)%float in
  if PrimFloat.leb 0.5 t then (b - diff_b_a * (1 - t))%float else (a + diff_b_a * t)%float.

Definition quantile (arr : list float) (q : float) : outcome float :=
  let values_count := len arr in
  let virtual_index := (of_Z (values_count - 1) * q)%float in
  let '(previous_index, next_index) :=
    if PrimFloat.leb (of_Z (values_count - 1)) virtual_index then ((-1)%Z, (-1)%Z)
    else if PrimFloat.ltb virtual_index 0 then (0%Z, 0%Z)
    else (floor virtual_index, (floor virtual_index + 1)%Z) in
  let sorted := sort arr in
  previous ← getitem_list sorted previous_index;
  next ← getitem_list sorted next_index;
  let gamma := (virtual_index - of_Z previous_index)%float in
  mret (lerp previous next gamma).

Definition percentile (a : list float) (q : list float) : outcome (list float) :=
  if forallb (fun p => PrimFloat.leb 0 p && PrimFloat.leb p 100) q
  then mapM (fun p => quantile a (p / 100)%float) q
  else Raised (ValueError "Percentiles must be in the range [0, 100]").

(** The values and the probabilities of the quartile markers, lines 146 to
    149. *)
Definition quartile_markers (current_data : list float) : outcome (list float * list float) :=
  qs ← percentile current_data [25; 50; 75]%float;
  match qs with
  | [q25; q50; q75] => Returned ([q25; q50; q75], [0.25; 0.50; 0.75]%float)
  | _ => Raised (ValueError "wrong number of values to unpack")
  end.

End binary64.

(** *** The animation (lines 110-185)

    The state is the sequence of calls made so far that show on the page (or
    pause the script).  Of a figure,
    the two traces and the axis ranges are kept; colours, sizes, hover
    templates and the grid are not, and the title is kept as the two values
    it prints. *)

Record scatter : Type := {
  x : list Q;
  y : list Q;
  mode : string;
  name : string;
  text : list string
}.

Record figure : Type := {
  cdf_line : scatter;
  quartiles : scatter;
  title_year : Z;
  title_sample_size : Z;
  xaxis_range : Q * Q;
  yaxis_range : Q * Q
}.

Inductive call : Type :=
  | st_progress (value : Q)
  | st_empty
  | progress_bar_progress (value : Q)
  | status_text_text (s : string)
  | plot_placeholder_container
  | st_plotly_chart (fig : figure)
  | time_sleep (seconds : Q)
  | progress_bar_empty
  | status_text_empty
  | st_success (msg : string).

Definition do (c : call) : py (list call) unit := fun page => (Returned tt, page ++ [c]).

(** Streamlit runs the script under its script runner.  A click on a widget
    while the script runs is a request to run the script again.  The runner
    looks for a pending request whenever the script calls a Streamlit
    command, before the command takes effect, and ends the run there by
    raising [RerunException] in the script, which has no handler for it.
    [requested page] tells whether a request is pending once the script has
    made the calls of [page].  [time.sleep] is no Streamlit command: the
    runner does not look then. *)
Definition st (requested : list call -> bool) (c : call) : py (list call) unit :=
  fun page => if requested page then (Raised RerunException, page) else do c page.

(** No click during the run, and a click that arrives when the script has
    made [arrival] calls and stays pending from then on. *)
Definition no_request : list call -> bool := fun _ => false.

Definition request_at (arrival : nat) : list call -> bool :=
  fun page => (arrival <=? length page)%nat.

(** [q25, q50, q75 = ...] *)
Definition unpack3 (l : list Q) : outcome (Q * Q * Q) :=
  match l with
  | [a; b; c] => Returned (a, b, c)
  | _ => Raised (ValueError "wrong number of values to unpack")
  end.

(** The quartile markers (lines 146-155): values and probabilities. *)
Definition quartile_markers (current_data : list Q) : outcome scatter :=
  qs ← np.percentile current_data [25; 50; 75];
  '(q25, q50, q75) ← unpack3 qs;
  mret {| x := [q25; q50; q75];
          y := [0.25; 0.50; 0.75];
          mode := "markers";
          name := "Quartiles";
          text := ["Q1 (25%)"; "Q2 (50%)"; "Q3 (75%)"] |}.

(** The body of the loop, lines 120-180. *)
Definition frame_body_under (requested : list call -> bool)
    (data_dict : gmap Z (list Q)) (years : list Z)
    (n_observations : Z) (animation_speed : Q) (stop_animation : bool)
    (x_min x_max : Q) (iy : nat * Z) : py (list call) control :=
  let '(i, year) := iy in
  if stop_animation then mret Break
  else
    let progress_value := inject_Z (Z.of_nat i + 1) / inject_Z (len years) in
    st requested (progress_bar_progress progress_value);;
    st requested (status_text_text ("Showing year: " +:+ pretty year));;
    current_data ← lift (getitem data_dict year);
    '(x_cdf, y_cdf) ← lift (empirical_cdf current_data);
    markers ← lift (quartile_markers current_data);
    let fig :=
      {| cdf_line := {| x := x_cdf; y := y_cdf; mode := "lines";
                        name := "Empirical CDF - " +:+ pretty year; text := [] |};
         quartiles := markers;
         title_year := year;
         title_sample_size := n_observations;
         xaxis_range := (x_min, x_max);
         yaxis_range := (0, 1) |} in
    st requested plot_placeholder_container;;
    st requested (st_plotly_chart fig);;
    do (time_sleep animation_speed);;
    mret Continue.

(** The block of lines 110-185. *)
Definition animation_under (requested : list call -> bool)
    (data_dict : gmap Z (list Q)) (years : list Z)
    (n_observations : Z) (animation_speed : Q)
    (start_animation stop_animation : bool) : py (list call) unit :=
  if start_animation then
    st requested (st_progress 0);;
    st requested st_empty;;
    arrays ← mapM (fun year => lift (getitem data_dict year)) years;
    all_values ← lift (np.concatenate arrays);
    lo ← lift (np.min all_values);
    hi ← lift (np.max all_values);
    let x_min := lo - 5 in
    let x_max := hi + 5 in
    for_in (enumerate years)
      (frame_body_under requested data_dict years n_observations animation_speed
         stop_animation x_min x_max);;
    st requested progress_bar_empty;;
    st requested status_text_empty;;
    st requested (st_success "🎉 Animation completed!")
  else mret tt.

(** The loop body and the block in a run that no click disturbs. *)
Definition frame_body := frame_body_under no_request.
Definition animation := animation_under no_request.

(** What a run put on the page: the years of the frames shown, in order, the
    values the progress bar was set to, and whether the run ended by
    announcing completion. *)
Definition frame_years (page : list call) : list Z :=
  omap (fun c => match c with st_plotly_chart fig => Some (title_year fig) | _ => None end) page.

Definition progress_values (page : list call) : list Q :=
  omap (fun c => match c with progress_bar_progress v => Some v | _ => None end) page.

Definition announced_completion (page : list call) : Prop :=
  last page = Some (st_success "🎉 Animation completed!").

(** Every year of the list has a sample in the dict, and none of these
    samples is empty. *)
Definition filled (data_dict : gmap Z (list Q)) (years : list Z) : Prop :=
  forall year, year ∈ years -> exists v, data_dict !! year = Some v /\ v <> [].

(** The progress value of turn [i] of the loop (line 124). *)
Definition progress_of (years : list Z) (i : nat) : Q :=
  inject_Z (Z.of_nat i + 1) / inject_Z (len years).

(** A dict of six small samples, to run the animation on. *)
Definition example_data : gmap Z (list Q) :=
  list_to_map
    [(2010%Z, [3; 1; 2]); (2011%Z, [2.5; 4; 1]); (2012%Z, [5; 3; 4.5]);
     (2013%Z, [4; 6; 5]); (2014%Z, [7; 5.5; 6]); (2015%Z, [6; 8; 7])].

(** ** The periods of a run

    The quantities of period [i] as the loop computes them when no earlier
    period raised, written as functions of [i]: the random state the period
    starts from, its target mean and spread, the deviates it draws and the
    sample it stores. *)

Section Periods.
Context (G : np.random.RandomState) (n_obs : Z) (trend_str vol : Q).

Fixpoint deviates_from (n : nat) (s : np.random.state G) : list Q * np.random.state G :=
  match n with
  | O => ([], s)
  | S n' =>
      let '(g, s1) := np.random.standard_normal G s in
      let '(gs, s2) := deviates_from n' s1 in
      (g :: gs, s2)
  end.

Fixpoint state_before (i : nat) : np.random.state G :=
  match i with
  | O => np.random.init G 42
  | S j =>
      let s1 := snd (np.random.standard_normal G (state_before j)) in
      let s2 := snd (np.random.random_sample G s1) in
      snd (deviates_from (Z.to_nat n_obs) s2)
  end.

Definition state_after_mean (i : nat) : np.random.state G :=
  snd (np.random.standard_normal G (state_before i)).

Definition state_after_spread (i : nat) : np.random.state G :=
  snd (np.random.random_sample G (state_after_mean i)).

Definition year_mean (i : nat) : Q :=
  base_mean + trend_str * inject_Z (Z.of_nat i)
  + (0 + 2 * fst (np.random.standard_normal G (state_before i))).

Definition year_std (i : nat) : Q :=
  base_std * vol + (-2 + (2 - -2) * fst (np.random.random_sample G (state_after_mean i))).

Definition deviates (i : nat) : list Q :=
  fst (deviates_from (Z.to_nat n_obs) (state_after_spread i)).

Definition noise (i : nat) : list Q := (fun g => 0 + year_std i * g) <$> deviates i.

Fixpoint sample (i : nat) : list Q :=
  match i with
  | O => (fun g => year_mean 0 + year_std 0 * g) <$> deviates 0
  | S j => np.add (np.shift (np.scale 0.7 (sample j)) (0.3 * year_mean (S j))) (noise (S j))
  end.

(** The random states period [i] draws its normal deviates from. *)
Fixpoint states_from (n : nat) (s : np.random.state G) : list (np.random.state G) :=
  match n with
  | O => []
  | S n' => s :: states_from n' (snd (np.random.standard_normal G s))
  end.

Definition normal_states (i : nat) : list (np.random.state G) :=
  state_before i :: states_from (Z.to_nat n_obs) (state_after_spread i).

Fixpoint samples_upto (i : nat) : gmap Z (list Q) :=
  match i with
  | O => ∅
  | S j => <[(2010 + Z.of_nat j)%Z := sample j]> (samples_upto j)
  end.

(** The loop from period [i] on, for [k] more periods: it stops at the first
    period whose spread is negative (or, the size being negative, at once). *)
Fixpoint run_from (k i : nat) : outcome (gmap Z (list Q)) * np.random.state G :=
  match k with
  | O => (Returned (samples_upto i), state_before i)
  | S k' =>
      if Qltb (year_std i) 0 then
        (Raised (ValueError "scale < 0"), state_after_spread i)
      else if (n_obs <? 0)%Z then
        (Raised (ValueError "negative dimensions are not allowed"), state_after_spread i)
      else run_from k' (S i)
  end.

End Periods.

(** ** The rest of the script *)

(** *** The summary table (lines 75-84)

    The list [stats_data] the loop builds, one row per year.  A row keeps
    the four numbers; the script prints each with two decimals. *)
Record stats_row : Type := {
  Year : Z;
  Mean : np.number;
  Std_Dev : np.number;
  Min : Q;
  Max : Q
}.

Definition stats_data (sqrt : Q -> Q) (data_dict : gmap Z (list Q)) (years : list Z)
    : outcome (list stats_row) :=
  mapM (fun year =>
          values ← getitem data_dict year;
          lo ← np.min values;
          hi ← np.max values;
          mret {| Year := year; Mean := np.mean values; Std_Dev := np.std sqrt values;
                  Min := lo; Max := hi |})
       years.

(** [row] is the row of [year]: it names the year, and the numbers it
    formats as the least and the greatest value are entries of the sample
    the dict has for the year and bound all its entries. *)
Definition row_of (sqrt : Q -> Q) (data_dict : gmap Z (list Q)) (year : Z)
    (row : stats_row) : Prop :=
  exists v,
    data_dict !! year = Some v /\
    Year row = year /\
    Min row ∈ v /\ Max row ∈ v /\
    (forall z, z ∈ v -> Min row <= z /\ z <= Max row) /\
    Mean row = np.mean v /\
    Std_Dev row = np.std sqrt v.

(** *** Reading a run of the animation *)

(** The figures shown, in order. *)
Definition frames (page : list call) : list figure :=
  omap (fun c => match c with st_plotly_chart fig => Some fig | _ => None end) page.

(** The figure the loop builds for [year] from the sample [v] of the year,
    its quartile markers and the axis limits (lines 133-169). *)
Definition frame_of (n_observations : Z) (x_min x_max : Q) (year : Z) (v : list Q)
    (markers : scatter) : figure :=
  {| cdf_line := {| x := np.sort v;
                    y := np.true_divide (np.arange 1 (len v + 1)) (len v);
                    mode := "lines";
                    name := "Empirical CDF - " +:+ pretty year;
                    text := [] |};
     quartiles := markers;
     title_year := year;
     title_sample_size := n_observations;
     xaxis_range := (x_min, x_max);
     yaxis_range := (0, 1) |}.

(** [fig] is the figure of [year]: built from the sample the dict has for
    the year, which is not empty, and from its quartile markers. *)
Definition frame_for (data_dict : gmap Z (list Q)) (n_observations : Z) (x_min x_max : Q)
    (year : Z) (fig : figure) : Prop :=
  exists v markers,
    data_dict !! year = Some v /\ v <> [] /\
    quartile_markers v = Returned markers /\
    fig = frame_of n_observations x_min x_max year v markers.

(** The five calls of one turn of the loop. *)
Definition frame_calls (years : list Z) (animation_speed : Q) (iy : nat * Z) (fig : figure)
    : list call :=
  [progress_bar_progress (progress_of years (fst iy));
   status_text_text ("Showing year: " +:+ pretty (snd iy));
   plot_placeholder_container;
   st_plotly_chart fig;
   time_sleep animation_speed].

(** The calls at which the runner looks for a request: the Streamlit
    commands, that is every call but [time.sleep]. *)
Definition is_st (c : call) : bool :=
  match c with
  | time_sleep _ => false
  | _ => true
  end.

(** The run of a script under the runner, read off the calls [q] that the
    undisturbed run adds to [page]: the page the run ends with, and whether
    the runner ended it. *)
Fixpoint cut (requested : list call -> bool) (page q : list call) : list call * bool :=
  match q with
  | [] => (page, false)
  | c :: q' =>
      if is_st c && requested page then (page, true)
      else cut requested (page ++ [c]) q'
  end.

(** [m'] is the script [m] under a runner that may end it: it makes the
    calls of [m] up to the first Streamlit command at which a request is
    pending, and raises there; with no such command it is [m]. *)
Definition runs_under {A} (requested : list call -> bool) (m' m : py (list call) A) : Prop :=
  forall page, exists q,
    snd (m page) = page ++ q /\
    m' page = if snd (cut requested page q)
              then (Raised RerunException, fst (cut requested page q))
              else m page.

(** All the values of the dict for the years of the list, as line 116
    concatenates them. *)
Definition all_values_of (data_dict : gmap Z (list Q)) (years : list Z) : list Q :=
  concat (omap (fun year => data_dict !! year) years).

(** *** Reading a sample and a run of the generator *)

(** How many entries of the sample are at most [v]. *)
Definition count_le (data : list Q) (v : Q) : nat :=
  length (List.filter (fun z => Qle_bool z v) data).

(** What a trend of strength 1 adds to every entry of period [i]: the
    recurrence of line 48 applied to the trend term of line 38. *)
Fixpoint trend_offset (i : nat) : Q :=
  match i with
  | O => 0
  | S j => 0.7 * trend_offset j + 0.3 * inject_Z (Z.of_nat (S j))
  end.

(** * Properties *)

(** ** The monads *)

Lemma outcome_bind_Returned {A B} (a : A) (f : A -> outcome B) :
  Returned a ≫= f = f a.
Proof. reflexivity. Qed.

Lemma outcome_bind_Raised {A B} (e : exception) (f : A -> outcome B) :
  Raised e ≫= f = Raised e.
Proof. reflexivity. Qed.

Lemma py_bind_Returned {S A B} (m : py S A) (f : A -> py S B) (s s' : S) (a : A) :
  m s = (Returned a, s') -> (m ≫= f) s = f a s'.
Proof. intros H. unfold mbind, py_bind. by rewrite H. Qed.

Lemma py_bind_Raised {S A B} (m : py S A) (f : A -> py S B) (s s' : S) (e : exception) :
  m s = (Raised e, s') -> (m ≫= f) s = (Raised e, s').
Proof. intros H. unfold mbind, py_bind. by rewrite H. Qed.

(** ** Comparisons on [Q] *)

Lemma Qle_bool_false (x y : Q) : Qle_bool x y = false <-> y < x.
Proof.
  rewrite <- not_true_iff_false, Qle_bool_iff. split.
  - apply Qnot_le_lt.
  - apply Qlt_not_le.
Qed.

Lemma Qltb_true (x y : Q) : Qltb x y = true <-> x < y.
Proof. unfold Qltb. rewrite negb_true_iff. apply Qle_bool_false. Qed.

Lemma Qltb_false (x y : Q) : Qltb x y = false <-> y <= x.
Proof. unfold Qltb. rewrite negb_false_iff. apply Qle_bool_iff. Qed.

(** Turns the boolean tests in the context into their propositions. *)
Ltac Qprop :=
  repeat match goal with
    | H : Qle_bool _ _ = true |- _ => apply Qle_bool_iff in H
    | H : Qle_bool _ _ = false |- _ => apply Qle_bool_false in H
    | H : Qltb _ _ = true |- _ => apply Qltb_true in H
    | H : Qltb _ _ = false |- _ => apply Qltb_false in H
    end.

(** Splits on the test a conditional of the goal branches on. *)
Ltac Qcase :=
  match goal with
  | |- context [if Qle_bool ?a ?b then _ else _] =>
      let E := fresh "E" in destruct (Qle_bool a b) eqn:E
  | |- context [if Qltb ?a ?b then _ else _] =>
      let E := fresh "E" in destruct (Qltb a b) eqn:E
  end; Qprop.

(** ** [np.sort] *)

Lemma insert_Permutation (x : Q) (l : list Q) : np.insert x l ≡ₚ x :: l.
Proof.
  induction l as [|y l IH]; simpl; [done|].
  destruct (Qle_bool x y); [done|].
  rewrite IH. apply Permutation_swap.
Qed.

Lemma sort_Permutation (a : list Q) : np.sort a ≡ₚ a.
Proof.
  induction a as [|x a IH]; simpl; [done|].
  rewrite insert_Permutation. by constructor.
Qed.

Lemma sort_length (a : list Q) : length (np.sort a) = length a.
Proof. apply Permutation_length, sort_Permutation. Qed.

Lemma insert_sorted (x : Q) (l : list Q) :
  StronglySorted Qle l -> StronglySorted Qle (np.insert x l).
Proof.
  induction 1 as [|y l Hl IH Hy]; simpl.
  - repeat constructor.
  - Qcase.
    + constructor; [by constructor|].
      constructor; [done|].
      eapply Forall_impl; [exact Hy|]. intros z Hz. simpl in Hz. lra.
    + constructor; [done|].
      rewrite insert_Permutation. constructor; [lra | done].
Qed.

Lemma sort_sorted (a : list Q) : StronglySorted Qle (np.sort a).
Proof.
  induction a as [|x a IH]; simpl; [constructor|]. by apply insert_sorted.
Qed.

(** The sorted array is determined by the numbers in the array, whatever
    their order. *)
Lemma insert_proper (x x' : Q) (l l' : list Q) :
  x == x' -> Forall2 Qeq l l' -> Forall2 Qeq (np.insert x l) (np.insert x' l').
Proof.
  intros Hx. induction 1 as [|y y' l l' Hy Hl IH]; simpl.
  - by repeat constructor.
  - destruct (Qle_bool x y) eqn:E1, (Qle_bool x' y') eqn:E2; Qprop;
      try (exfalso; lra); by repeat constructor.
Qed.

Lemma insert_insert (x y : Q) (l : list Q) :
  Forall2 Qeq (np.insert x (np.insert y l)) (np.insert y (np.insert x l)).
Proof.
  induction l as [|z l IH]; simpl.
  - destruct (Qle_bool x y) eqn:E1, (Qle_bool y x) eqn:E2; Qprop;
      try (exfalso; lra); repeat constructor; lra.
  - destruct (Qle_bool y z) eqn:E1, (Qle_bool x z) eqn:E2; simpl;
      destruct (Qle_bool x y) eqn:E3, (Qle_bool y x) eqn:E4; simpl;
      rewrite ?E1, ?E2; Qprop; try (exfalso; lra);
      repeat (constructor; try lra); solve [ reflexivity | apply IH ].
Qed.

Lemma sort_Permutation_Qeq (a b : list Q) :
  a ≡ₚ b -> Forall2 Qeq (np.sort a) (np.sort b).
Proof.
  induction 1 as [|x a b _ IH|x y a|a b c _ IH1 _ IH2]; simpl.
  - constructor.
  - by apply insert_proper.
  - apply insert_insert.
  - by transitivity (np.sort b).
Qed.

(** ** [empirical_cdf] *)

Lemma empirical_cdf_eq (data : list Q) :
  empirical_cdf data =
  Returned (np.sort data,
            (fun k => inject_Z k / inject_Z (len data)) <$> seqZ 1 (len data)).
Proof.
  unfold empirical_cdf, np.true_divide, np.arange.
  by replace (len data + 1 - 1)%Z with (len data) by lia.
Qed.

Example empirical_cdf_three :
  empirical_cdf [3; 1; 2] = Returned ([1; 2; 3], [1 # 3; 2 # 3; 3 # 3]).
Proof. reflexivity. Qed.

Lemma cumulative_lookup (n : Z) (i : nat) (a : Q) :
  ((fun k => inject_Z k / inject_Z n) <$> seqZ 1 n) !! i = Some a ->
  a = inject_Z (1 + Z.of_nat i) / inject_Z n /\ (Z.of_nat i < n)%Z.
Proof.
  rewrite list_lookup_fmap. intros H.
  destruct (seqZ 1 n !! i) as [k|] eqn:Hk; simplify_eq/=.
  apply lookup_seqZ in Hk as [-> ?]. done.
Qed.

(** C3.  On a sample that is not empty, the cumulative probabilities that
    [empirical_cdf] returns never decrease, start at [1/n] and end at 1,
    [n] being the length of the sample. *)
Theorem empirical_cdf_probabilities (data : list Q) :
  data <> [] ->
  exists sorted_data y,
    empirical_cdf data = Returned (sorted_data, y) /\
    length y = length data /\
    (forall i j a b, (i <= j)%nat -> y !! i = Some a -> y !! j = Some b -> a <= b) /\
    (exists first, head y = Some first /\ first == 1 / inject_Z (len data)) /\
    (exists final, last y = Some final /\ final == 1).
Proof.
  intros Hne. eexists _, _. split; [apply empirical_cdf_eq|].
  assert (Hn : (0 < len data)%Z) by (destruct data; [done | unfold len; simpl; lia]).
  assert (HnQ : 0 < inject_Z (len data))
    by (change 0 with (inject_Z 0); by rewrite <- Zlt_Qlt).
  assert (Hlen : length ((fun k => inject_Z k / inject_Z (len data)) <$> seqZ 1 (len data))
                 = length data)
    by (rewrite length_fmap, length_seqZ; unfold len; lia).
  split; [exact Hlen|]. split; [|split].
  - intros i j a b Hij Ha Hb.
    apply cumulative_lookup in Ha as [-> _], Hb as [-> _].
    apply Qmult_le_compat_r.
    + rewrite <- Zle_Qle. lia.
    + apply Qinv_le_0_compat. lra.
  - destruct (seqZ 1 (len data)) as [|k l] eqn:Hs.
    + apply (f_equal length) in Hs. rewrite length_seqZ in Hs. simpl in Hs. lia.
    + exists (inject_Z k / inject_Z (len data)). split; [done|].
      assert (Hk : seqZ 1 (len data) !! 0%nat = Some k) by (by rewrite Hs).
      apply lookup_seqZ in Hk as [-> _]. reflexivity.
  - rewrite last_lookup, Hlen.
    destruct (_ !! pred (length data)) as [final|] eqn:Hf.
    + exists final. split; [done|].
      apply cumulative_lookup in Hf as [-> _].
      replace (1 + Z.of_nat (pred (length data)))%Z with (len data)
        by (unfold len in *; lia).
      apply Qmult_inv_r. lra.
    + apply lookup_ge_None in Hf. rewrite Hlen in Hf. unfold len in Hn. lia.
Qed.

Lemma empirical_cdf_probabilities_witness :
  [3; 1; 2] <> [] /\
  exists sorted_data y,
    empirical_cdf [3; 1; 2] = Returned (sorted_data, y) /\
    length y = 3%nat /\
    (forall i j a b, (i <= j)%nat -> y !! i = Some a -> y !! j = Some b -> a <= b) /\
    (exists first, head y = Some first /\ first == 1 / inject_Z (len [3; 1; 2])) /\
    (exists final, last y = Some final /\ final == 1).
Proof.
  assert (H : [3; 1; 2] <> []) by discriminate.
  exact (conj H (empirical_cdf_probabilities [3; 1; 2] H)).
Defined.

(** C5, as the code has it.  [empirical_cdf] does not check its argument and
    raises on no sample: it returns as many sorted values and as many
    probabilities as the sample has entries.  On the empty sample these are
    two empty sequences. *)
Theorem empirical_cdf_empty (data : list Q) :
  exists sorted_data y,
    empirical_cdf data = Returned (sorted_data, y) /\
    length sorted_data = length data /\
    length y = length data /\
    (data = [] -> sorted_data = [] /\ y = []).
Proof.
  eexists _, _. split; [apply empirical_cdf_eq|].
  split; [apply sort_length|]. split.
  - rewrite length_fmap, length_seqZ. unfold len. lia.
  - by intros ->.
Qed.

(** C5 as stated fails: on the empty sample [empirical_cdf] raises nothing. *)
Lemma empirical_cdf_empty_not_raised : ~ exists e, empirical_cdf [] = Raised e.
Proof. intros [e He]. discriminate He. Qed.

(** C10.  [empirical_cdf] does not depend on the order of the sample: on a
    permutation of it, the sorted values are the same numbers position by
    position, and the cumulative probabilities are the same sequence. *)
Theorem empirical_cdf_permutation (data data' : list Q) :
  data ≡ₚ data' ->
  exists sorted_data sorted_data' y,
    empirical_cdf data = Returned (sorted_data, y) /\
    empirical_cdf data' = Returned (sorted_data', y) /\
    Forall2 Qeq sorted_data sorted_data'.
Proof.
  intros Hp. eexists _, _, _. rewrite !empirical_cdf_eq.
  split; [reflexivity|]. split.
  - unfold len. by rewrite (Permutation_length Hp).
  - by apply sort_Permutation_Qeq.
Qed.

Lemma empirical_cdf_permutation_witness :
  [3; 1; 2] ≡ₚ [2; 3; 1] /\
  exists sorted_data sorted_data' y,
    empirical_cdf [3; 1; 2] = Returned (sorted_data, y) /\
    empirical_cdf [2; 3; 1] = Returned (sorted_data', y) /\
    Forall2 Qeq sorted_data sorted_data'.
Proof.
  assert (H : [3; 1; 2] ≡ₚ [2; 3; 1])
    by (transitivity [3; 2; 1]; [apply perm_skip, perm_swap | apply perm_swap]).
  exact (conj H (empirical_cdf_permutation [3; 1; 2] [2; 3; 1] H)).
Defined.

(** The same three facts in binary64, for every sample size up to 2000, the
    largest the slider offers. *)
Lemma cumulative_binary64 (n : nat) :
  (1 <= n <= 2000)%nat -> binary64.cumulative_ok n = true.
Proof.
  intros Hn.
  assert (H : forallb binary64.cumulative_ok (seq 1 2000) = true)
    by (vm_compute; reflexivity).
  rewrite forallb_forall in H. apply H, in_seq. lia.
Qed.

(** ** Indexing, [np.min] and [np.max] *)

Lemma StronglySorted_lookup_le (l : list Q) (i j : nat) (a b : Q) :
  StronglySorted Qle l -> (i <= j)%nat -> l !! i = Some a -> l !! j = Some b -> a <= b.
Proof.
  intros Hs. revert i j. induction Hs as [|x l Hs IH Hx]; intros i j Hij Ha Hb; [done|].
  destruct i as [|i], j as [|j]; simplify_eq/=; try lia.
  - lra.
  - rewrite Forall_forall in Hx. apply Hx. eapply list_elem_of_lookup_2, Hb.
  - eapply IH; [|exact Ha|exact Hb]. lia.
Qed.

Lemma getitem_list_nonneg {A} (l : list A) (i : Z) (x : A) :
  (0 <= i)%Z -> l !! Z.to_nat i = Some x -> getitem_list l i = Returned x.
Proof.
  intros Hi H. unfold getitem_list.
  destruct (Z.ltb_spec i 0) as [?|_]; [lia|].
  destruct (Z.ltb_spec i 0) as [?|_]; [lia|].
  by rewrite H.
Qed.

Lemma getitem_list_last {A} (l : list A) :
  l <> [] -> exists x, getitem_list l (-1) = Returned x /\ last l = Some x.
Proof.
  intros Hne. unfold getitem_list. simpl.
  assert (0 < length l)%nat by (destruct l; [done | simpl; lia]).
  destruct (Z.ltb_spec (len l + -1) 0) as [?|_]; [unfold len in *; lia|].
  rewrite last_lookup.
  replace (Z.to_nat (len l + -1)) with (pred (length l)) by (unfold len; lia).
  destruct (l !! pred (length l)) as [x|] eqn:Hx; [by exists x|].
  apply lookup_ge_None in Hx. lia.
Qed.

Lemma foldl_Qmin_le (x : Q) (l : list Q) :
  foldl Qmin x l <= x /\ Forall (Qle (foldl Qmin x l)) l.
Proof.
  revert x. induction l as [|z l IH]; intros x; simpl.
  - split; [lra | constructor].
  - destruct (IH (Qmin x z)) as [H1 H2].
    pose proof (Q.le_min_l x z). pose proof (Q.le_min_r x z).
    split; [lra|]. constructor; [lra | done].
Qed.

Lemma foldl_Qmax_ge (x : Q) (l : list Q) :
  x <= foldl Qmax x l /\ Forall (fun z => z <= foldl Qmax x l) l.
Proof.
  revert x. induction l as [|z l IH]; intros x; simpl.
  - split; [lra | constructor].
  - destruct (IH (Qmax x z)) as [H1 H2].
    pose proof (Q.le_max_l x z). pose proof (Q.le_max_r x z).
    split; [lra|]. constructor; [lra | done].
Qed.

Lemma min_spec (a : list Q) :
  a <> [] -> exists lo, np.min a = Returned lo /\ Forall (Qle lo) a.
Proof.
  destruct a as [|x a]; [done|]. intros _. eexists. split; [reflexivity|].
  destruct (foldl_Qmin_le x a). by constructor.
Qed.

Lemma max_spec (a : list Q) :
  a <> [] -> exists hi, np.max a = Returned hi /\ Forall (fun z => z <= hi) a.
Proof.
  destruct a as [|x a]; [done|]. intros _. eexists. split; [reflexivity|].
  destruct (foldl_Qmax_ge x a). by constructor.
Qed.

(** ** [np.percentile] *)

Lemma lerp_same (a t : Q) : np.lerp a a t == a.
Proof. unfold np.lerp. destruct (Qle_bool (1 # 2) t); ring. Qed.

Lemma lerp_between (a b t : Q) :
  a <= b -> 0 <= t -> t <= 1 -> a <= np.lerp a b t /\ np.lerp a b t <= b.
Proof. intros Hab H0 H1. unfold np.lerp. destruct (Qle_bool (1 # 2) t); nra. Qed.

Lemma quantile_between (arr : list Q) (q lo hi : Q) :
  arr <> [] -> 0 <= q ->
  Forall (Qle lo) arr -> Forall (fun z => z <= hi) arr ->
  exists v, np.quantile arr q = Returned v /\ lo <= v /\ v <= hi.
Proof.
  intros Hne Hq Hlo Hhi. unfold np.quantile.
  pose proof (sort_Permutation arr) as Hp. pose proof (sort_sorted arr) as Hs.
  rewrite <- Hp in Hlo, Hhi. rewrite Forall_forall in Hlo, Hhi.
  assert (Hin : forall i z, np.sort arr !! i = Some z -> lo <= z /\ z <= hi).
  { intros i z Hz. apply list_elem_of_lookup_2 in Hz. auto. }
  assert (Hlen : (0 < length (np.sort arr))%nat).
  { rewrite sort_length. destruct arr; [done | simpl; lia]. }
  assert (Hn : inject_Z (len arr) == inject_Z (Z.of_nat (length (np.sort arr))))
    by (by rewrite sort_length).
  set (v := (inject_Z (len arr) - 1) * q) in *.
  destruct (Qle_bool (inject_Z (len arr) - 1) v) eqn:E1; Qprop.
  - destruct (getitem_list_last (np.sort arr)) as (z & -> & Hz);
      [intros Heq; rewrite Heq in Hlen; simpl in Hlen; lia|]. simpl.
    rewrite last_lookup in Hz. apply Hin in Hz.
    eexists. split; [reflexivity|]. rewrite lerp_same. done.
  - destruct (Qltb v 0) eqn:E2; Qprop.
    + destruct (np.sort arr) as [|z l] eqn:Hsort; [simpl in Hlen; lia|].
      simpl. eexists. split; [reflexivity|]. rewrite lerp_same.
      apply (Hin 0%nat). done.
    + assert (Hf0 : (0 <= Qfloor v)%Z)
        by (change 0%Z with (Qfloor 0); by apply Qfloor_resp_le).
      pose proof (Qfloor_le v) as Hfl. pose proof (Qlt_floor v) as Hfu.
      assert (Hf1 : (Qfloor v + 1 < Z.of_nat (length (np.sort arr)))%Z).
      { rewrite Zlt_Qlt, <- Hn, inject_Z_plus.
        change (inject_Z 1) with 1. lra. }
      destruct (np.sort arr !! Z.to_nat (Qfloor v)) as [a|] eqn:Ha;
        [|apply lookup_ge_None in Ha; lia].
      destruct (np.sort arr !! Z.to_nat (Qfloor v + 1)) as [b|] eqn:Hb;
        [|apply lookup_ge_None in Hb; lia].
      rewrite (getitem_list_nonneg _ _ _ Hf0 Ha), outcome_bind_Returned.
      rewrite (getitem_list_nonneg _ (Qfloor v + 1) _ ltac:(lia) Hb), outcome_bind_Returned.
      eexists. split; [reflexivity|].
      assert (Hab : a <= b).
      { eapply StronglySorted_lookup_le; [exact Hs| |exact Ha|exact Hb]. lia. }
      rewrite inject_Z_plus in Hfu. change (inject_Z 1) with 1 in Hfu.
      destruct (lerp_between a b (v - inject_Z (Qfloor v)) Hab) as [H1 H2]; [lra..|].
      destruct (Hin _ _ Ha), (Hin _ _ Hb). lra.
Qed.

(** ** The quartile markers *)

Lemma quartile_markers_between (data : list Q) (lo hi : Q) :
  data <> [] ->
  Forall (Qle lo) data -> Forall (fun z => z <= hi) data ->
  exists q25 q50 q75,
    quartile_markers data =
      Returned {| x := [q25; q50; q75]; y := [0.25; 0.50; 0.75];
                  mode := "markers"; name := "Quartiles";
                  text := ["Q1 (25%)"; "Q2 (50%)"; "Q3 (75%)"] |} /\
    (lo <= q25 /\ q25 <= hi) /\ (lo <= q50 /\ q50 <= hi) /\ (lo <= q75 /\ q75 <= hi).
Proof.
  intros Hne Hlo Hhi.
  destruct (quantile_between data (25 / 100) lo hi) as (q25 & E25 & B25);
    [done | by compute | done..|].
  destruct (quantile_between data (50 / 100) lo hi) as (q50 & E50 & B50);
    [done | by compute | done..|].
  destruct (quantile_between data (75 / 100) lo hi) as (q75 & E75 & B75);
    [done | by compute | done..|].
  exists q25, q50, q75. split; [|done].
  unfold quartile_markers, np.percentile.
  change (forallb _ [25; 50; 75]) with true. cbn [mapM].
  rewrite E25, outcome_bind_Returned, E50, outcome_bind_Returned, E75.
  reflexivity.
Qed.




(** On a sample of ordinary size the binary64 markers are the exact ones. *)
Example quartile_markers_five_binary64 :
  binary64.quartile_markers [4; 1; 3; 2; 10]%float
  = Returned ([2; 3; 4]%float, [0.25; 0.50; 0.75]%float).
Proof. vm_compute. reflexivity. Qed.

(** The markers of a five-point sample: 2, 3 and 4, as numpy gives them. *)
Example quartile_markers_five :
  exists markers,
    quartile_markers [4; 1; 3; 2; 10] = Returned markers /\
    Forall2 Qeq (x markers) [2; 3; 4].
Proof.
  eexists. split; [vm_compute; reflexivity|].
  repeat constructor.
Qed.

(** ** [np.random] *)

Section DrawFacts.
Context (G : np.random.RandomState).

Lemma seed_run (n : Z) (s : np.random.state G) :
  np.random.seed G n s = (Returned tt, np.random.init G n).
Proof. reflexivity. Qed.

Lemma gauss_run (s : np.random.state G) :
  np.random.gauss G s =
  (Returned (fst (np.random.standard_normal G s)), snd (np.random.standard_normal G s)).
Proof. unfold np.random.gauss. by destruct (np.random.standard_normal G s). Qed.

Lemma gauss_n_run (n : nat) (s : np.random.state G) :
  np.random.gauss_n G n s =
  (Returned (fst (deviates_from G n s)), snd (deviates_from G n s)).
Proof.
  revert s. induction n as [|n IH]; intros s; simpl; [done|].
  erewrite py_bind_Returned by apply gauss_run.
  erewrite py_bind_Returned by apply IH.
  destruct (np.random.standard_normal G s) as [g s1]; simpl.
  by destruct (deviates_from G n s1).
Qed.

Lemma deviates_from_length (n : nat) (s : np.random.state G) :
  length (fst (deviates_from G n s)) = n.
Proof.
  revert s. induction n as [|n IH]; intros s; simpl; [done|].
  destruct (np.random.standard_normal G s) as [g s1].
  specialize (IH s1). destruct (deviates_from G n s1). simpl in *. lia.
Qed.

Lemma uniform_run (low high : Q) (s : np.random.state G) :
  np.random.uniform G low high s =
  (Returned (low + (high - low) * fst (np.random.random_sample G s)),
   snd (np.random.random_sample G s)).
Proof.
  unfold np.random.uniform, np.random.next_double, mbind, py_bind.
  by destruct (np.random.random_sample G s).
Qed.

Lemma normal_run (loc scale : Q) (s : np.random.state G) :
  np.random.normal G loc scale s =
  if Qltb scale 0 then (Raised (ValueError "scale < 0"), s)
  else (Returned (loc + scale * fst (np.random.standard_normal G s)),
        snd (np.random.standard_normal G s)).
Proof.
  unfold np.random.normal. destruct (Qltb scale 0); [done|].
  by erewrite py_bind_Returned by apply gauss_run.
Qed.

Lemma normal_array_run (loc scale : Q) (size : Z) (s : np.random.state G) :
  np.random.normal_array G loc scale size s =
  if Qltb scale 0 then (Raised (ValueError "scale < 0"), s)
  else if (size <? 0)%Z then (Raised (ValueError "negative dimensions are not allowed"), s)
  else (Returned ((fun g => loc + scale * g) <$> fst (deviates_from G (Z.to_nat size) s)),
        snd (deviates_from G (Z.to_nat size) s)).
Proof.
  unfold np.random.normal_array. destruct (Qltb scale 0); [done|].
  destruct (size <? 0)%Z; [done|].
  by erewrite py_bind_Returned by apply gauss_n_run.
Qed.

End DrawFacts.

(** ** The generator, period by period *)

Section GeneratorFacts.
Context (G : np.random.RandomState) (n_obs : Z) (trend_str vol : Q).

Local Abbreviation year_std := (year_std G n_obs vol).
Local Abbreviation year_mean := (year_mean G n_obs trend_str).
Local Abbreviation sample := (sample G n_obs trend_str vol).
Local Abbreviation samples_upto := (samples_upto G n_obs trend_str vol).
Local Abbreviation state_before := (state_before G n_obs).
Local Abbreviation state_after_spread := (state_after_spread G n_obs).
Local Abbreviation run := (run_from G n_obs trend_str vol).
Local Abbreviation years := (range 2010 2016).

Lemma years_eq : years = [2010; 2011; 2012; 2013; 2014; 2015]%Z.
Proof. reflexivity. Qed.

Lemma years_lookup (j : nat) :
  (j < 6)%nat -> getitem_list years (Z.of_nat (S j) - 1) = Returned (2010 + Z.of_nat j)%Z.
Proof.
  intros Hj. apply getitem_list_nonneg; [lia|].
  replace (Z.to_nat (Z.of_nat (S j) - 1)) with j by lia.
  do 6 (destruct j as [|j]; [reflexivity|]). lia.
Qed.

Lemma samples_upto_lookup (i j : nat) :
  (j < i)%nat -> samples_upto i !! (2010 + Z.of_nat j)%Z = Some (sample j).
Proof.
  induction i as [|i IH]; [lia|]. intros Hj. simpl.
  destruct (decide (j = i)) as [->|Hne].
  - apply lookup_insert_eq.
  - rewrite lookup_insert_ne by lia. apply IH. lia.
Qed.

Lemma samples_upto_lookup_inv (i : nat) (year : Z) (v : list Q) :
  samples_upto i !! year = Some v ->
  exists j, (j < i)%nat /\ year = (2010 + Z.of_nat j)%Z /\ v = sample j.
Proof.
  induction i as [|i IH]; [done|]. simpl.
  destruct (decide (2010 + Z.of_nat i = year)%Z) as [<-|Hne].
  - rewrite lookup_insert_eq. intros [= <-]. exists i. split; [lia | done].
  - rewrite lookup_insert_ne by done.
    intros (j & Hj & -> & ->)%IH. exists j. split; [lia | done].
Qed.

Lemma samples_upto_fresh (i j : nat) :
  (i <= j)%nat -> samples_upto i !! (2010 + Z.of_nat j)%Z = None.
Proof.
  induction i as [|i IH]; [done|]. intros Hj. simpl.
  rewrite lookup_insert_ne by lia. apply IH. lia.
Qed.

(** One turn of the loop, from the state and the dict the turns before it
    leave: it raises when the spread is negative, and otherwise stores the
    period's sample. *)
Lemma year_body_run (i : nat) :
  (i < 6)%nat ->
  year_body G n_obs trend_str vol years (samples_upto i) (i, (2010 + Z.of_nat i)%Z)
    (state_before i) =
  if Qltb (year_std i) 0 then
    (Raised (ValueError "scale < 0"), state_after_spread i)
  else if (n_obs <? 0)%Z then
    (Raised (ValueError "negative dimensions are not allowed"), state_after_spread i)
  else (Returned (samples_upto (S i)), state_before (S i)).
Proof.
  intros Hi. unfold year_body.
  erewrite py_bind_Returned by (rewrite normal_run; reflexivity).
  erewrite py_bind_Returned by apply uniform_run.
  fold (state_after_mean G n_obs i). fold (state_after_spread i).
  fold (year_mean i). fold (year_std i).
  destruct i as [|j].
  - cbn [Nat.eqb]. unfold mbind at 1, py_bind at 1. rewrite normal_array_run.
    destruct (Qltb (year_std 0) 0); [done|]. destruct (n_obs <? 0)%Z; [done|].
    reflexivity.
  - cbn [Nat.eqb].
    unfold mbind at 1, py_bind at 1.
    erewrite py_bind_Returned by (unfold lift; rewrite years_lookup by lia; reflexivity).
    erewrite py_bind_Returned
      by (unfold lift, getitem; rewrite samples_upto_lookup by lia; reflexivity).
    unfold mbind at 1, py_bind at 1. rewrite normal_array_run.
    destruct (Qltb (year_std (S j)) 0); [done|]. destruct (n_obs <? 0)%Z; [done|].
    reflexivity.
Qed.

Lemma loop_run (k i : nat) :
  (i + k <= 6)%nat ->
  for_acc ((fun j => (j, (2010 + Z.of_nat j)%Z)) <$> seq i k)
    (year_body G n_obs trend_str vol years) (samples_upto i) (state_before i) =
  run k i.
Proof.
  revert i. induction k as [|k IH]; intros i Hik; [done|].
  cbn [seq fmap list_fmap for_acc run_from].
  unfold mbind, py_bind. rewrite year_body_run by lia.
  destruct (Qltb (year_std i) 0); [done|]. destruct (n_obs <? 0)%Z; [done|].
  apply IH. lia.
Qed.

Lemma generate_run (s : np.random.state G) :
  generate_evolving_data G n_obs trend_str vol s =
  match run 6 0 with
  | (Returned data, s') => (Returned (data, years), s')
  | (Raised e, s') => (Raised e, s')
  end.
Proof.
  unfold generate_evolving_data.
  erewrite py_bind_Returned by apply seed_run.
  unfold mbind, py_bind.
  change (enumerate years) with ((fun j => (j, (2010 + Z.of_nat j)%Z)) <$> seq 0 6).
  change (np.random.init G 42) with (state_before 0).
  change (∅ : gmap Z (list Q)) with (samples_upto 0) at 1.
  rewrite loop_run by lia.
  by destruct (run 6 0) as [[data|e] s'].
Qed.

End GeneratorFacts.

(** ** MT19937: every double lies in [[0, 1)] *)

Module mt19937_facts.
Import mt19937.

Lemma u32_is_u32 (x : Z) : is_u32 (u32 x).
Proof.
  unfold is_u32, u32. change 0xffffffff%Z with (Z.ones 32).
  rewrite Z.land_ones by lia. apply Z.mod_pos_bound. lia.
Qed.

Lemma lt_pow2_of_log2 (a n : Z) :
  (0 <= a)%Z -> (0 < n)%Z -> (Z.log2 a < n)%Z -> (a < 2 ^ n)%Z.
Proof.
  intros Ha Hn Hl. destruct (Z.eq_dec a 0%Z) as [->|Hne].
  - apply Z.pow_pos_nonneg; lia.
  - apply Z.log2_lt_pow2; lia.
Qed.

Lemma log2_of_lt_pow2 (a n : Z) :
  (0 <= a < 2 ^ n)%Z -> (0 < n)%Z -> (Z.log2 a < n)%Z.
Proof.
  intros [Ha Hlt] Hn. destruct (Z.eq_dec a 0%Z) as [->|Hne]; [simpl; lia|].
  apply Z.log2_lt_pow2; lia.
Qed.

Lemma lxor_is_u32 (a b : Z) : is_u32 a -> is_u32 b -> is_u32 (Z.lxor a b).
Proof.
  unfold is_u32. intros Ha Hb. split.
  - apply Z.lxor_nonneg. lia.
  - apply lt_pow2_of_log2; [apply Z.lxor_nonneg; lia | lia |].
    pose proof (Z.log2_lxor a b ltac:(lia) ltac:(lia)).
    pose proof (log2_of_lt_pow2 a 32 Ha ltac:(lia)).
    pose proof (log2_of_lt_pow2 b 32 Hb ltac:(lia)). lia.
Qed.

Lemma land_is_u32 (a c : Z) : (0 <= a)%Z -> is_u32 c -> is_u32 (Z.land a c).
Proof.
  unfold is_u32. intros Ha Hc. split.
  - apply Z.land_nonneg. lia.
  - apply lt_pow2_of_log2; [apply Z.land_nonneg; lia | lia |].
    pose proof (Z.log2_land a c ltac:(lia) ltac:(lia)).
    pose proof (log2_of_lt_pow2 c 32 Hc ltac:(lia)). lia.
Qed.

Lemma shiftr_is_u32 (a k : Z) : is_u32 a -> (0 <= k)%Z -> is_u32 (Z.shiftr a k).
Proof.
  unfold is_u32. intros Ha Hk. rewrite Z.shiftr_div_pow2 by lia.
  assert (0 < 2 ^ k)%Z by (apply Z.pow_pos_nonneg; lia).
  split; [apply Z.div_pos; lia|].
  apply Z.le_lt_trans with a; [|lia]. apply Z.div_le_upper_bound; nia.
Qed.

Lemma next_is_u32 (s : mt19937_state) : is_u32 (fst (mt19937_next s)).
Proof.
  unfold mt19937_next. destruct (pos s =? N)%nat; cbn [fst];
    repeat first
      [ apply lxor_is_u32 | apply shiftr_is_u32 | apply u32_is_u32
      | apply land_is_u32; [apply Z.shiftl_nonneg|unfold is_u32; lia]
      | lia | eapply proj1 ].
Qed.

Lemma next_double_range (s : mt19937_state) :
  0 <= fst (mt19937_next_double s) /\ fst (mt19937_next_double s) < 1.
Proof.
  unfold mt19937_next_double.
  pose proof (next_is_u32 s) as Ha.
  destruct (mt19937_next s) as [a s1]. pose proof (next_is_u32 s1) as Hb.
  destruct (mt19937_next s1) as [b s2]. cbn [fst] in *.
  unfold is_u32 in Ha, Hb.
  assert (0 <= Z.shiftr a 5 < 2 ^ 27)%Z as Ha'.
  { rewrite Z.shiftr_div_pow2 by lia. split; [apply Z.div_pos; lia|].
    apply Z.div_lt_upper_bound; lia. }
  assert (0 <= Z.shiftr b 6 < 2 ^ 26)%Z as Hb'.
  { rewrite Z.shiftr_div_pow2 by lia. split; [apply Z.div_pos; lia|].
    apply Z.div_lt_upper_bound; lia. }
  change 9007199254740992 with (inject_Z 9007199254740992).
  assert (0 < inject_Z 9007199254740992) by (by compute).
  split.
  - apply Qle_shift_div_l; [done|]. rewrite Qmult_0_l.
    change 0 with (inject_Z 0). rewrite <- Zle_Qle. lia.
  - apply Qlt_shift_div_r; [done|]. rewrite Qmult_1_l.
    rewrite <- Zlt_Qlt. lia.
Qed.

Lemma legacy_in_unit_interval (polar_factor : Q -> Q) :
  np.random.in_unit_interval (legacy polar_factor).
Proof. intros s. apply next_double_range. Qed.

End mt19937_facts.

(** ** The generator: when it returns, when it raises *)

Section GeneratorOutcome.
Context (G : np.random.RandomState) (n_obs : Z) (trend_str vol : Q).

Local Abbreviation year_std := (year_std G n_obs vol).
Local Abbreviation year_mean := (year_mean G n_obs trend_str).
Local Abbreviation sample := (sample G n_obs trend_str vol).
Local Abbreviation samples_upto := (samples_upto G n_obs trend_str vol).
Local Abbreviation state_before := (state_before G n_obs).
Local Abbreviation state_after_spread := (state_after_spread G n_obs).
Local Abbreviation run := (run_from G n_obs trend_str vol).
Local Abbreviation years := (range 2010 2016).

Lemma run_from_ok (k i : nat) :
  (0 <= n_obs)%Z ->
  (forall j, (i <= j < i + k)%nat -> 0 <= year_std j) ->
  run k i = (Returned (samples_upto (i + k)), state_before (i + k)).
Proof.
  intros Hn. revert i. induction k as [|k IH]; intros i Hstd; simpl.
  - by rewrite Nat.add_0_r.
  - destruct (Qltb (year_std i) 0) eqn:E; Qprop.
    { specialize (Hstd i ltac:(lia)). lra. }
    destruct (Z.ltb_spec n_obs 0); [lia|].
    rewrite IH by (intros j Hj; apply Hstd; lia).
    by replace (S i + k)%nat with (i + S k)%nat by lia.
Qed.

Lemma run_from_negative_spread (k i m : nat) :
  (0 <= n_obs)%Z -> (i <= m < i + k)%nat ->
  (forall j, (i <= j < m)%nat -> 0 <= year_std j) ->
  year_std m < 0 ->
  run k i = (Raised (ValueError "scale < 0"), state_after_spread m).
Proof.
  intros Hn. revert i. induction k as [|k IH]; intros i Hm Hstd Hneg; [lia|]. simpl.
  destruct (Qltb (year_std i) 0) eqn:E; Qprop.
  - destruct (decide (i = m)) as [->|Hne]; [done|].
    specialize (Hstd i ltac:(lia)). lra.
  - destruct (decide (i = m)) as [->|Hne]; [lra|].
    destruct (Z.ltb_spec n_obs 0); [lia|].
    apply IH; [lia | intros j Hj; apply Hstd; lia | done].
Qed.

Lemma run_from_returned_inv (k i : nat) (data : gmap Z (list Q)) (s' : np.random.state G) :
  run k i = (Returned data, s') ->
  data = samples_upto (i + k) /\ s' = state_before (i + k) /\
  ((0 < k)%nat -> (0 <= n_obs)%Z) /\
  (forall j, (i <= j < i + k)%nat -> 0 <= year_std j).
Proof.
  revert i. induction k as [|k IH]; intros i; simpl.
  - intros [= <- <-]. rewrite Nat.add_0_r. repeat split; intros; lia.
  - destruct (Qltb (year_std i) 0) eqn:E; [done|]. Qprop.
    destruct (Z.ltb_spec n_obs 0); [done|].
    intros (-> & -> & _ & Hstd)%IH.
    replace (S i + k)%nat with (i + S k)%nat by lia. repeat split; [done|].
    intros j Hj. destruct (decide (j = i)) as [->|]; [done|]. apply Hstd. lia.
Qed.

Lemma generate_returns (s : np.random.state G) :
  (0 <= n_obs)%Z ->
  (forall j, (j < 6)%nat -> 0 <= year_std j) ->
  generate_evolving_data G n_obs trend_str vol s =
  (Returned (samples_upto 6, years), state_before 6).
Proof.
  intros Hn Hstd. rewrite generate_run, (run_from_ok 6 0 Hn); [done|].
  intros j Hj. apply Hstd. lia.
Qed.

Lemma generate_negative_spread (m : nat) (s : np.random.state G) :
  (0 <= n_obs)%Z -> (m < 6)%nat ->
  (forall j, (j < m)%nat -> 0 <= year_std j) ->
  year_std m < 0 ->
  generate_evolving_data G n_obs trend_str vol s =
  (Raised (ValueError "scale < 0"), state_after_spread m).
Proof.
  intros Hn Hm Hstd Hneg.
  rewrite generate_run, (run_from_negative_spread 6 0 m Hn); [done|lia| |done].
  intros j Hj. apply Hstd. lia.
Qed.

Lemma generate_returned_inv (s : np.random.state G) (data : gmap Z (list Q)) (ys : list Z) :
  fst (generate_evolving_data G n_obs trend_str vol s) = Returned (data, ys) ->
  data = samples_upto 6 /\ ys = years /\ (0 <= n_obs)%Z /\
  (forall j, (j < 6)%nat -> 0 <= year_std j).
Proof.
  rewrite generate_run.
  destruct (run 6 0) as [[d|e] s'] eqn:Hrun; [|done].
  intros [= <- <-]. apply run_from_returned_inv in Hrun as (-> & _ & Hn & Hstd).
  repeat split; [lia|]. intros j Hj. apply Hstd. lia.
Qed.

(** Every stored sample has [n_obs] entries. *)
Lemma deviates_length (i : nat) : length (deviates G n_obs i) = Z.to_nat n_obs.
Proof. apply deviates_from_length. Qed.

Lemma noise_length (i : nat) : length (noise G n_obs vol i) = Z.to_nat n_obs.
Proof. unfold noise. by rewrite length_fmap, deviates_length. Qed.

Lemma sample_length (i : nat) : length (sample i) = Z.to_nat n_obs.
Proof.
  induction i as [|i IH]; simpl.
  - by rewrite length_fmap, deviates_length.
  - unfold np.add, np.shift, np.scale.
    rewrite length_zip_with, !length_fmap, IH, noise_length. lia.
Qed.

End GeneratorOutcome.

(** The spread is the volatility term plus a jitter of [[-2, 2)]: it cannot
    be negative once [15 * vol] is at least 2. *)
Lemma year_std_nonneg (G : np.random.RandomState) (n_obs : Z) (vol : Q) (i : nat) :
  np.random.in_unit_interval G -> 2 / 15 <= vol -> 0 <= year_std G n_obs vol i.
Proof.
  intros HG Hvol. unfold year_std, base_std.
  destruct (HG (state_after_mean G n_obs i)) as [Hd _].
  assert (E : 2 / 15 == 2 # 15) by reflexivity. rewrite E in Hvol.
  lra.
Qed.

(** ** The generator: the claims *)

(** C1.  [generate_evolving_data] reseeds the global random state before it
    draws: whatever state two invocations start from, with the same
    arguments they end alike, with the same samples, entry for entry (or
    the same exception), and the same random state. *)
Theorem generate_deterministic (G : np.random.RandomState) (n_obs : Z) (trend_str vol : Q)
    (s1 s2 : np.random.state G) :
  generate_evolving_data G n_obs trend_str vol s1 =
  generate_evolving_data G n_obs trend_str vol s2.
Proof. by rewrite !generate_run. Qed.

(** C2.  In the dict a run returns, the sample of every period [i >= 1] is,
    entry by entry, 0.7 times the entry at the same index of the sample of
    period [i - 1], plus 0.3 times the target mean of period [i], plus a
    deviate of period [i] scaled by the spread of period [i]. *)
Theorem blend_of_previous_period (G : np.random.RandomState) (n_obs : Z) (trend_str vol : Q)
    (s : np.random.state G) (data : gmap Z (list Q)) (ys : list Z) (i : nat) :
  fst (generate_evolving_data G n_obs trend_str vol s) = Returned (data, ys) ->
  (1 <= i < 6)%nat ->
  exists prev_values values,
    data !! (2010 + Z.of_nat i - 1)%Z = Some prev_values /\
    data !! (2010 + Z.of_nat i)%Z = Some values /\
    length prev_values = Z.to_nat n_obs /\
    length values = Z.to_nat n_obs /\
    forall k p, prev_values !! k = Some p ->
      exists g,
        deviates G n_obs i !! k = Some g /\
        values !! k =
          Some (0.7 * p + 0.3 * year_mean G n_obs trend_str i
                + (0 + year_std G n_obs vol i * g)).
Proof.
  intros (-> & -> & Hn & Hstd)%generate_returned_inv Hi.
  destruct i as [|j]; [lia|].
  exists (sample G n_obs trend_str vol j), (sample G n_obs trend_str vol (S j)).
  split. { replace (2010 + Z.of_nat (S j) - 1)%Z with (2010 + Z.of_nat j)%Z by lia.
           apply samples_upto_lookup. lia. }
  split. { apply samples_upto_lookup. lia. }
  split; [apply sample_length|]. split; [apply sample_length|].
  intros k p Hp.
  assert (Hk : (k < Z.to_nat n_obs)%nat)
    by (apply lookup_lt_Some in Hp; by rewrite sample_length in Hp).
  destruct (deviates G n_obs (S j) !! k) as [g|] eqn:Hg;
    [|apply lookup_ge_None in Hg; rewrite deviates_length in Hg; lia].
  exists g. split; [done|].
  cbn [sample]. unfold np.add, np.shift, np.scale, noise.
  rewrite lookup_zip_with, !list_lookup_fmap, Hp, Hg. reflexivity.
Qed.

Lemma blend_of_previous_period_witness :
  let G := mt19937.legacy (fun _ => 1) in
  fst (generate_evolving_data G 2 0.5 1 (mt19937.mt19937_seed 0)) =
    Returned (samples_upto G 2 0.5 1 6, range 2010 2016) /\
  (1 <= 1 < 6)%nat /\
  exists prev_values values,
    samples_upto G 2 0.5 1 6 !! (2010 + Z.of_nat 1 - 1)%Z = Some prev_values /\
    samples_upto G 2 0.5 1 6 !! (2010 + Z.of_nat 1)%Z = Some values /\
    length prev_values = Z.to_nat 2 /\
    length values = Z.to_nat 2 /\
    forall k p, prev_values !! k = Some p ->
      exists g,
        deviates G 2 1 !! k = Some g /\
        values !! k =
          Some (0.7 * p + 0.3 * year_mean G 2 0.5 1 + (0 + year_std G 2 1 1 * g)).
Proof.
  intros G.
  assert (H : fst (generate_evolving_data G 2 0.5 1 (mt19937.mt19937_seed 0)) =
              Returned (samples_upto G 2 0.5 1 6, range 2010 2016)).
  { rewrite generate_returns; [reflexivity | lia |].
    intros j _.
    apply year_std_nonneg; [apply mt19937_facts.legacy_in_unit_interval | by compute]. }
  assert (Hi : (1 <= 1 < 6)%nat) by lia.
  exact (conj H (conj Hi
    (blend_of_previous_period G 2 0.5 1 (mt19937.mt19937_seed 0) _ _ 1 H Hi))).
Defined.

(** Where the generator is safe: with a size that is not negative and
    [15 * vol] at least 2, no spread is negative and the six samples are
    returned. *)
Lemma generate_returns_of_volatility (G : np.random.RandomState) (n_obs : Z)
    (trend_str vol : Q) (s : np.random.state G) :
  np.random.in_unit_interval G -> (0 <= n_obs)%Z -> 2 / 15 <= vol ->
  generate_evolving_data G n_obs trend_str vol s =
  (Returned (samples_upto G n_obs trend_str vol 6, range 2010 2016), state_before G n_obs 6).
Proof.
  intros HG Hn Hvol. apply generate_returns; [done|].
  intros j _. by apply year_std_nonneg.
Qed.

(** ** The generator under numpy's generator, seed 42 *)

Section Seed42.
Context (polar_factor : Q -> Q).

Local Abbreviation numpy := (mt19937.legacy polar_factor).

(** The first doubles after [np.random.seed(42)]:
    0.3745401188473625, 0.9507143064099162, 0.7319939418114051. *)
Example first_doubles :
  let '(d1, s1) := mt19937.mt19937_next_double (mt19937.mt19937_seed 42) in
  let '(d2, s2) := mt19937.mt19937_next_double s1 in
  let '(d3, s3) := mt19937.mt19937_next_double s2 in
  [d1; d2; d3] =
  [3373557479352566 # 9007199254740992;
   8563273192166996 # 9007199254740992;
   6593215287158609 # 9007199254740992].
Proof. vm_compute. reflexivity. Qed.

(** The sliders at 100 observations and volatility 0.1, their minima: the
    spreads of the periods 2010 to 2012 are positive, the spread of 2013 is
    negative (about -0.4566). *)
Lemma spreads_at_slider_minimum :
  0 <= year_std numpy 100 0.1 0 /\ 0 <= year_std numpy 100 0.1 1 /\
  0 <= year_std numpy 100 0.1 2 /\
  year_std numpy 100 0.1 3 == -514141510253069 # 1125899906842624.
Proof.
  split; [|split; [|split]]; try (apply Qle_bool_iff; vm_compute; reflexivity).
  apply Qeq_bool_iff. vm_compute. reflexivity.
Qed.

(** None of the normal draws of that run, up to the one that raises, takes
    the exit of the bounded rejection loop. *)
Lemma no_draw_gives_up_at_slider_minimum :
  forallb (fun s => negb (mt19937.gives_up s))
    (normal_states numpy 100 0 ++ normal_states numpy 100 1 ++ normal_states numpy 100 2
     ++ [state_before numpy 100 3]) = true.
Proof. vm_compute. reflexivity. Qed.

(** C9, at an input the sliders allow: 100 observations, trend 0.5,
    volatility 0.1.  The normal draw of the period 2013 is given a negative
    spread, and the generator raises numpy's [ValueError]. *)
Theorem generate_raises_at_slider_minimum (s : mt19937.mt19937_state) :
  generate_evolving_data numpy 100 0.5 0.1 s =
  (Raised (ValueError "scale < 0"), state_after_spread numpy 100 3).
Proof.
  destruct spreads_at_slider_minimum as (H0 & H1 & H2 & H3).
  apply generate_negative_spread with (m := 3%nat); [lia | lia | |].
  - intros j Hj. destruct j as [|[|[|j]]]; [exact H0 | exact H1 | exact H2 | lia].
  - apply Qltb_true. vm_compute. reflexivity.
Qed.

(** With volatility 0 the spread is the jitter alone.  Asked for one
    observation, the generator samples the period 2010 and raises in the
    period 2011, whose jitter is negative. *)
Lemma zero_volatility_raises_in_second_period (s : mt19937.mt19937_state) :
  0 <= year_std numpy 1 0 0 /\
  generate_evolving_data numpy 1 0.5 0 s =
  (Raised (ValueError "scale < 0"), state_after_spread numpy 1 1).
Proof.
  assert (H0 : 0 <= year_std numpy 1 0 0) by (apply Qle_bool_iff; vm_compute; reflexivity).
  split; [exact H0|].
  apply generate_negative_spread with (m := 1%nat); [lia | lia | |].
  - intros j Hj. destruct j as [|j]; [exact H0 | lia].
  - apply Qltb_true. vm_compute. reflexivity.
Qed.

(** Volatility 0 and 33 observations: the six spreads are the jitters
    alone, 0.93, 0.08, 1.08, 0.81, 0.12 and 0.89, none of them negative. *)
Lemma spreads_at_zero_volatility (i : nat) :
  (i < 6)%nat -> 0 <= year_std numpy 33 0 i.
Proof.
  intros Hi.
  assert (H : forallb (fun j => Qle_bool 0 (year_std numpy 33 0 j)) (seq 0 6) = true)
    by (vm_compute; reflexivity).
  rewrite forallb_forall in H. apply Qle_bool_iff, H, in_seq. lia.
Qed.

End Seed42.

(** ** The generator checks nothing *)

(** C4, as the code has it.  The generator checks neither argument and
    knows no configuration error.  Asked for no observations, with
    [15 * vol] at least 2, it returns the dict of six empty samples.  At
    volatility 0 the spread of a period is its jitter alone, and for every
    size that is not negative the generator returns the six samples, each
    of [n_obs] entries, whenever none of the six jitters is negative. *)
Theorem generate_unvalidated (G : np.random.RandomState) (trend_str : Q)
    (s : np.random.state G) :
  (forall vol,
     np.random.in_unit_interval G -> 2 / 15 <= vol ->
     exists data,
       fst (generate_evolving_data G 0 trend_str vol s) =
         Returned (data, [2010; 2011; 2012; 2013; 2014; 2015]%Z) /\
       forall i, (i < 6)%nat -> data !! (2010 + Z.of_nat i)%Z = Some []) /\
  (forall n_obs,
     (0 <= n_obs)%Z ->
     (forall i, (i < 6)%nat -> 0 <= year_std G n_obs 0 i) ->
     exists data,
       fst (generate_evolving_data G n_obs trend_str 0 s) =
         Returned (data, [2010; 2011; 2012; 2013; 2014; 2015]%Z) /\
       forall i, (i < 6)%nat ->
         exists values, data !! (2010 + Z.of_nat i)%Z = Some values /\ len values = n_obs).
Proof.
  split.
  - intros vol HG Hvol. eexists. split.
    + rewrite generate_returns; [reflexivity | lia |].
      intros j _. by apply year_std_nonneg.
    + intros i Hi. rewrite samples_upto_lookup by done. f_equal.
      apply length_zero_iff_nil. by rewrite sample_length.
  - intros n_obs Hn Hstd. eexists. split.
    + rewrite generate_returns; [reflexivity | done | done].
    + intros i Hi. eexists. split; [by apply samples_upto_lookup|].
      unfold len. rewrite sample_length. lia.
Qed.

Lemma generate_unvalidated_witness :
  let G := mt19937.legacy (fun _ => 1) in
  (np.random.in_unit_interval G /\ 2 / 15 <= 1 /\
   exists data,
     fst (generate_evolving_data G 0 0.5 1 (mt19937.mt19937_seed 0)) =
       Returned (data, [2010; 2011; 2012; 2013; 2014; 2015]%Z) /\
     forall i, (i < 6)%nat -> data !! (2010 + Z.of_nat i)%Z = Some []) /\
  ((0 <= 33)%Z /\ (forall i, (i < 6)%nat -> 0 <= year_std G 33 0 i) /\
   exists data,
     fst (generate_evolving_data G 33 0.5 0 (mt19937.mt19937_seed 0)) =
       Returned (data, [2010; 2011; 2012; 2013; 2014; 2015]%Z) /\
     forall i, (i < 6)%nat ->
       exists values, data !! (2010 + Z.of_nat i)%Z = Some values /\ len values = 33%Z).
Proof.
  intros G.
  assert (HG : np.random.in_unit_interval G) by apply mt19937_facts.legacy_in_unit_interval.
  assert (Hvol : 2 / 15 <= 1) by (by compute).
  assert (Hn : (0 <= 33)%Z) by lia.
  pose proof (spreads_at_zero_volatility (fun _ => 1)) as Hstd.
  exact (conj
    (conj HG (conj Hvol
       (proj1 (generate_unvalidated G 0.5 (mt19937.mt19937_seed 0)) 1 HG Hvol)))
    (conj Hn (conj Hstd
       (proj2 (generate_unvalidated G 0.5 (mt19937.mt19937_seed 0)) 33%Z Hn Hstd)))).
Defined.

(** C4 as stated fails, in both its cases.  Under numpy's generator, for
    no value of the polar factor and no random state to start from does
    the generator raise, be it with [n_obs = 0] and [vol = 1] or with
    [n_obs = 33] and [vol = 0]. *)
Lemma configuration_not_rejected :
  (~ exists (polar_factor : Q -> Q) (s : mt19937.mt19937_state) (e : exception),
       fst (generate_evolving_data (mt19937.legacy polar_factor) 0 0.5 1 s) = Raised e) /\
  (~ exists (polar_factor : Q -> Q) (s : mt19937.mt19937_state) (e : exception),
       fst (generate_evolving_data (mt19937.legacy polar_factor) 33 0.5 0 s) = Raised e).
Proof.
  split; intros (polar_factor & s & e & H).
  - rewrite generate_returns in H; [done | lia |].
    intros j _.
    apply year_std_nonneg; [apply mt19937_facts.legacy_in_unit_interval | by compute].
  - rewrite generate_returns in H; [done | lia |].
    apply spreads_at_zero_volatility.
Qed.

(** ** The animation *)

Lemma do_run (c : call) (page : list call) : do c page = (Returned tt, page ++ [c]).
Proof. reflexivity. Qed.

Lemma st_run (c : call) (page : list call) :
  st no_request c page = (Returned tt, page ++ [c]).
Proof. reflexivity. Qed.

Ltac call_run := first [apply st_run | apply do_run].

Lemma st_requested (requested : list call -> bool) (c : call) (page : list call) :
  requested page = true -> st requested c page = (Raised RerunException, page).
Proof. intros H. unfold st. by rewrite H. Qed.

Lemma st_not_requested (requested : list call -> bool) (c : call) (page : list call) :
  requested page = false -> st requested c page = (Returned tt, page ++ [c]).
Proof. intros H. unfold st. by rewrite H. Qed.

Lemma frame_years_app (p q : list call) : frame_years (p ++ q) = frame_years p ++ frame_years q.
Proof. apply omap_app. Qed.

Lemma progress_values_app (p q : list call) :
  progress_values (p ++ q) = progress_values p ++ progress_values q.
Proof. apply omap_app. Qed.

Lemma quartile_markers_returns (data : list Q) :
  data <> [] -> exists markers, quartile_markers data = Returned markers.
Proof.
  intros Hne.
  destruct (min_spec data Hne) as (lo & _ & Hlo).
  destruct (max_spec data Hne) as (hi & _ & Hhi).
  destruct (quartile_markers_between data lo hi Hne Hlo Hhi) as (? & ? & ? & E & _).
  eauto.
Qed.

Section Animation.
Context (data_dict : gmap Z (list Q)) (years : list Z).
Context (n_observations : Z) (animation_speed : Q).

Local Abbreviation filled := (filled data_dict).
Local Abbreviation progress_of := (progress_of years).

(** One turn of the loop when the stop flag is not set: five calls, the
    fourth showing the frame of the year. *)
Lemma frame_body_run (x_min x_max : Q) (i : nat) (year : Z) (page : list call) :
  filled [year] ->
  exists fig,
    title_year fig = year /\
    frame_body data_dict years n_observations animation_speed false x_min x_max (i, year) page =
    (Returned Continue,
     page ++ [progress_bar_progress (progress_of i);
              status_text_text ("Showing year: " +:+ pretty year);
              plot_placeholder_container;
              st_plotly_chart fig;
              time_sleep animation_speed]).
Proof.
  intros Hf. destruct (Hf year) as (v & Hv & Hne); [by left|].
  destruct (quartile_markers_returns v Hne) as (markers & Hm).
  eexists. split; [|unfold frame_body, frame_body_under].
  2: { erewrite py_bind_Returned by apply st_run.
       erewrite py_bind_Returned by apply st_run.
       erewrite py_bind_Returned by (unfold lift, getitem; rewrite Hv; reflexivity).
       erewrite py_bind_Returned by (unfold lift; rewrite empirical_cdf_eq; reflexivity).
       cbv beta iota.
       erewrite py_bind_Returned by (unfold lift; rewrite Hm; reflexivity).
       erewrite py_bind_Returned by apply st_run.
       erewrite py_bind_Returned by apply st_run.
       erewrite py_bind_Returned by apply do_run.
       unfold mret, py_ret. rewrite <- !app_assoc. reflexivity. }
  reflexivity.
Qed.

(** The loop with the stop flag clear: one frame per year, in the order of
    the list, and the progress value of each turn. *)
Lemma loop_without_stop (x_min x_max : Q) (l : list (nat * Z)) (page : list call) :
  filled (snd <$> l) ->
  exists page',
    for_in l (frame_body data_dict years n_observations animation_speed false x_min x_max) page =
      (Returned tt, page') /\
    frame_years page' = frame_years page ++ (snd <$> l) /\
    progress_values page' = progress_values page ++ (progress_of ∘ fst <$> l).
Proof.
  revert page. induction l as [|[i year] l IH]; intros page Hf.
  - exists page. by rewrite !app_nil_r.
  - destruct (frame_body_run x_min x_max i year page) as (fig & Hfig & Hrun).
    { intros y ->%list_elem_of_singleton. apply Hf. by left. }
    destruct (IH (page ++ [progress_bar_progress (progress_of i);
                           status_text_text ("Showing year: " +:+ pretty year);
                           plot_placeholder_container;
                           st_plotly_chart fig; time_sleep animation_speed]))
      as (page' & Hloop & Hfy & Hpv).
    { intros y Hy. apply Hf. by right. }
    exists page'. split; [|split].
    + cbn [for_in]. erewrite py_bind_Returned by exact Hrun. exact Hloop.
    + rewrite Hfy, frame_years_app. cbn. rewrite Hfig, <- app_assoc. reflexivity.
    + rewrite Hpv, progress_values_app. cbn. rewrite <- app_assoc. reflexivity.
Qed.

(** The loop with the stop flag set: the first turn breaks. *)
Lemma loop_with_stop (x_min x_max : Q) (l : list (nat * Z)) (page : list call) :
  for_in l (frame_body data_dict years n_observations animation_speed true x_min x_max) page =
  (Returned tt, page).
Proof. by destruct l as [|[i year] l]. Qed.

Lemma mapM_getitem (ys : list Z) (page : list call) :
  filled ys ->
  exists arrays,
    mapM (fun year => lift (getitem data_dict year)) ys page = (Returned arrays, page) /\
    length arrays = length ys /\ Forall (fun v => v <> []) arrays.
Proof.
  induction ys as [|year ys IH]; intros Hf.
  - by exists [].
  - destruct (Hf year) as (v & Hv & Hne); [by left|].
    destruct IH as (arrays & Hrun & Hlen & Hall); [intros y Hy; apply Hf; by right|].
    exists (v :: arrays). split; [|split; [simpl; lia | by constructor]].
    cbn [mapM].
    erewrite py_bind_Returned by (unfold lift, getitem; rewrite Hv; reflexivity).
    erewrite py_bind_Returned by exact Hrun. reflexivity.
Qed.

(** The whole block, the start button pressed.  What depends on the stop
    flag is only whether the loop shows the frames. *)
Lemma animation_run (stop_animation : bool) :
  years <> [] -> filled years ->
  exists page,
    animation data_dict years n_observations animation_speed true stop_animation [] =
      (Returned tt, page) /\
    frame_years page = (if stop_animation then [] else years) /\
    progress_values page =
      (if stop_animation then [] else progress_of <$> seq 0 (length years)) /\
    announced_completion page.
Proof.
  intros Hne Hf. unfold animation, animation_under.
  erewrite py_bind_Returned by call_run.
  erewrite py_bind_Returned by call_run.
  destruct (mapM_getitem years ([] ++ [st_progress 0] ++ [st_empty]) Hf)
    as (arrays & Hrun & Hlen & Hall).
  erewrite py_bind_Returned by exact Hrun.
  assert (Harr : arrays <> []) by (destruct arrays, years; simplify_eq/=; done).
  assert (Hcat : concat arrays <> []).
  { destruct arrays as [|v arrays]; [done|]. inversion Hall; subst.
    simpl. by destruct v. }
  erewrite py_bind_Returned
    by (unfold lift, np.concatenate; destruct arrays; [done | reflexivity]).
  destruct (min_spec _ Hcat) as (lo & Hlo & _). destruct (max_spec _ Hcat) as (hi & Hhi & _).
  erewrite py_bind_Returned by (unfold lift; rewrite Hlo; reflexivity).
  erewrite py_bind_Returned by (unfold lift; rewrite Hhi; reflexivity).
  destruct stop_animation.
  - erewrite py_bind_Returned by apply loop_with_stop.
    erewrite py_bind_Returned by call_run.
    erewrite py_bind_Returned by call_run.
    eexists. split; [call_run|]. split; [done|]. split; [done|].
    unfold announced_completion. by rewrite last_snoc.
  - destruct (loop_without_stop (lo - 5) (hi + 5) (enumerate years)
                ([] ++ [st_progress 0] ++ [st_empty])) as (page' & Hloop & Hfy & Hpv).
    { unfold enumerate. rewrite snd_zip by (rewrite length_seq; lia). done. }
    erewrite py_bind_Returned by exact Hloop.
    erewrite py_bind_Returned by call_run.
    erewrite py_bind_Returned by call_run.
    eexists. split; [call_run|]. split; [|split].
    + rewrite !frame_years_app, Hfy. cbn. rewrite !app_nil_r.
      unfold enumerate. by rewrite snd_zip by (rewrite length_seq; lia).
    + rewrite !progress_values_app, Hpv. cbn. rewrite !app_nil_r.
      unfold enumerate. rewrite list_fmap_compose.
      by rewrite fst_zip by (rewrite length_seq; lia).
    + unfold announced_completion. by rewrite last_snoc.
Qed.

End Animation.

Lemma example_data_filled : filled example_data (range 2010 2016).
Proof.
  intros year Hy.
  repeat (apply elem_of_cons in Hy as [->|Hy];
          [eexists; split; [reflexivity | discriminate]|]).
  by apply elem_of_nil in Hy.
Qed.

(** What the generator returns is what the animation needs: every sample has
    [n_obs] entries, so with at least one observation the six periods are
    filled. *)
Lemma generated_sample_length (G : np.random.RandomState) (n_obs : Z) (trend_str vol : Q)
    (s : np.random.state G) (data : gmap Z (list Q)) (ys : list Z) (year : Z) (v : list Q) :
  fst (generate_evolving_data G n_obs trend_str vol s) = Returned (data, ys) ->
  data !! year = Some v -> len v = n_obs.
Proof.
  intros (-> & -> & Hn & _)%generate_returned_inv (j & _ & _ & ->)%samples_upto_lookup_inv.
  unfold len. rewrite sample_length. lia.
Qed.

Lemma generated_data_filled (G : np.random.RandomState) (n_obs : Z) (trend_str vol : Q)
    (s : np.random.state G) (data : gmap Z (list Q)) (ys : list Z) :
  fst (generate_evolving_data G n_obs trend_str vol s) = Returned (data, ys) ->
  (1 <= n_obs)%Z -> filled data ys.
Proof.
  intros (-> & -> & Hn & _)%generate_returned_inv Hpos year Hy.
  apply elem_of_seqZ in Hy.
  exists (sample G n_obs trend_str vol (Z.to_nat (year - 2010))). split.
  - replace year with (2010 + Z.of_nat (Z.to_nat (year - 2010)))%Z at 1 by lia.
    apply samples_upto_lookup. lia.
  - intros Hnil. apply (f_equal length) in Hnil. rewrite sample_length in Hnil.
    simpl in Hnil. lia.
Qed.

(** ** The animation: the claims *)

(** C7.  Started on six filled periods with the stop flag clear, the
    animation shows six frames, for 2010 to 2015 in this order, sets the
    progress bar to 1/6, 2/6, 3/6, 4/6, 5/6 and 1 in turn, and ends by
    announcing completion. *)
Theorem animation_completes (data_dict : gmap Z (list Q)) (n_observations : Z)
    (animation_speed : Q) :
  filled data_dict (range 2010 2016) ->
  exists page,
    animation data_dict (range 2010 2016) n_observations animation_speed true false [] =
      (Returned tt, page) /\
    frame_years page = [2010; 2011; 2012; 2013; 2014; 2015]%Z /\
    Forall2 Qeq (progress_values page) [1 / 6; 2 / 6; 3 / 6; 4 / 6; 5 / 6; 1] /\
    announced_completion page.
Proof.
  intros Hf.
  destruct (animation_run data_dict (range 2010 2016) n_observations animation_speed false)
    as (page & Hrun & Hfy & Hpv & Hdone); [done | done |].
  exists page. split; [done|]. split; [done|]. split; [|done].
  rewrite Hpv. repeat constructor.
Qed.

Lemma animation_completes_witness :
  filled example_data (range 2010 2016) /\
  exists page,
    animation example_data (range 2010 2016) 3 1 true false [] = (Returned tt, page) /\
    frame_years page = [2010; 2011; 2012; 2013; 2014; 2015]%Z /\
    Forall2 Qeq (progress_values page) [1 / 6; 2 / 6; 3 / 6; 4 / 6; 5 / 6; 1] /\
    announced_completion page.
Proof.
  exact (conj example_data_filled (animation_completes example_data 3 1 example_data_filled)).
Defined.

(** * More of the script *)

(** ** The generator: shape, failure, first period, trend *)

(** X1.  The generator returns exactly when the size is not negative and
    none of the six spreads, [15 * vol] plus the jitter of the period, is
    negative. *)
Theorem generate_returns_iff (G : np.random.RandomState) (n_obs : Z) (trend_str vol : Q)
    (s : np.random.state G) :
  (exists data ys, fst (generate_evolving_data G n_obs trend_str vol s) = Returned (data, ys)) <->
  (0 <= n_obs)%Z /\ forall i, (i < 6)%nat -> 0 <= year_std G n_obs vol i.
Proof.
  split.
  - intros (data & ys & (_ & _ & Hn & Hstd)%generate_returned_inv). done.
  - intros [Hn Hstd]. eexists _, _. by rewrite generate_returns.
Qed.

(** X2.  What the generator returns has the six years 2010 to 2015 as its
    keys, no other key, a sample of [n_obs] entries under each, and the
    list of the six years beside it. *)
Theorem generated_shape (G : np.random.RandomState) (n_obs : Z) (trend_str vol : Q)
    (s : np.random.state G) (data : gmap Z (list Q)) (ys : list Z) :
  fst (generate_evolving_data G n_obs trend_str vol s) = Returned (data, ys) ->
  ys = [2010; 2011; 2012; 2013; 2014; 2015]%Z /\
  (forall year, is_Some (data !! year) <-> (2010 <= year <= 2015)%Z) /\
  (forall year values, data !! year = Some values -> len values = n_obs).
Proof.
  intros (-> & -> & Hn & _)%generate_returned_inv. split; [reflexivity|]. split.
  - intros year. split.
    + intros [v (j & Hj & -> & _)%samples_upto_lookup_inv]. lia.
    + intros Hy. exists (sample G n_obs trend_str vol (Z.to_nat (year - 2010))).
      replace year with (2010 + Z.of_nat (Z.to_nat (year - 2010)))%Z at 1 by lia.
      apply samples_upto_lookup. lia.
  - intros year values (j & _ & _ & ->)%samples_upto_lookup_inv.
    unfold len. rewrite sample_length. lia.
Qed.

Lemma generated_shape_witness :
  let G := mt19937.legacy (fun _ => 1) in
  fst (generate_evolving_data G 2 0.5 1 (mt19937.mt19937_seed 0)) =
    Returned (samples_upto G 2 0.5 1 6, range 2010 2016) /\
  (range 2010 2016 = [2010; 2011; 2012; 2013; 2014; 2015]%Z /\
   (forall year, is_Some (samples_upto G 2 0.5 1 6 !! year) <-> (2010 <= year <= 2015)%Z) /\
   (forall year values, samples_upto G 2 0.5 1 6 !! year = Some values -> len values = 2%Z)).
Proof.
  intros G.
  assert (H : fst (generate_evolving_data G 2 0.5 1 (mt19937.mt19937_seed 0)) =
              Returned (samples_upto G 2 0.5 1 6, range 2010 2016)).
  { rewrite generate_returns; [reflexivity | lia |].
    intros j _.
    apply year_std_nonneg; [apply mt19937_facts.legacy_in_unit_interval | by compute]. }
  exact (conj H (generated_shape G 2 0.5 1 (mt19937.mt19937_seed 0) _ _ H)).
Defined.

(** X3.  Asked for a negative number of observations, the generator raises
    numpy's [ValueError] in the first period, after the two draws of the
    period's mean and spread. *)
Theorem generate_negative_size (G : np.random.RandomState) (n_obs : Z) (trend_str vol : Q)
    (s : np.random.state G) :
  (n_obs < 0)%Z ->
  exists msg,
    generate_evolving_data G n_obs trend_str vol s =
    (Raised (ValueError msg), state_after_spread G n_obs 0).
Proof.
  intros Hn. rewrite generate_run. cbn [run_from].
  destruct (Qltb (year_std G n_obs vol 0) 0); [by eexists|].
  destruct (Z.ltb_spec n_obs 0); [by eexists | lia].
Qed.

Lemma generate_negative_size_witness :
  let G := mt19937.legacy (fun _ => 1) in
  (-1 < 0)%Z /\
  exists msg,
    generate_evolving_data G (-1) 0.5 1 (mt19937.mt19937_seed 0) =
    (Raised (ValueError msg), state_after_spread G (-1) 0).
Proof.
  intros G. assert (H : (-1 < 0)%Z) by lia.
  exact (conj H (generate_negative_size G (-1) 0.5 1 (mt19937.mt19937_seed 0) H)).
Defined.

(** X4.  In the dict a run returns, the sample of the first period, 2010, is
    entry by entry the target mean of the period plus its spread times a
    deviate of the period: the previous period plays no part. *)
Theorem first_period_sample (G : np.random.RandomState) (n_obs : Z) (trend_str vol : Q)
    (s : np.random.state G) (data : gmap Z (list Q)) (ys : list Z) :
  fst (generate_evolving_data G n_obs trend_str vol s) = Returned (data, ys) ->
  exists values,
    data !! 2010%Z = Some values /\
    length values = length (deviates G n_obs 0) /\
    forall k g, deviates G n_obs 0 !! k = Some g ->
      values !! k = Some (year_mean G n_obs trend_str 0 + year_std G n_obs vol 0 * g).
Proof.
  intros (-> & -> & _ & _)%generate_returned_inv.
  exists (sample G n_obs trend_str vol 0). split; [|split].
  - apply (samples_upto_lookup G n_obs trend_str vol 6 0). lia.
  - by rewrite sample_length, deviates_length.
  - intros k g Hg. cbn [sample]. by rewrite list_lookup_fmap, Hg.
Qed.

Lemma first_period_sample_witness :
  let G := mt19937.legacy (fun _ => 1) in
  fst (generate_evolving_data G 2 0.5 1 (mt19937.mt19937_seed 0)) =
    Returned (samples_upto G 2 0.5 1 6, range 2010 2016) /\
  exists values,
    samples_upto G 2 0.5 1 6 !! 2010%Z = Some values /\
    length values = length (deviates G 2 0) /\
    forall k g, deviates G 2 0 !! k = Some g ->
      values !! k = Some (year_mean G 2 0.5 0 + year_std G 2 1 0 * g).
Proof.
  intros G.
  assert (H : fst (generate_evolving_data G 2 0.5 1 (mt19937.mt19937_seed 0)) =
              Returned (samples_upto G 2 0.5 1 6, range 2010 2016)).
  { rewrite generate_returns; [reflexivity | lia |].
    intros j _.
    apply year_std_nonneg; [apply mt19937_facts.legacy_in_unit_interval | by compute]. }
  exact (conj H (first_period_sample G 2 0.5 1 (mt19937.mt19937_seed 0) _ _ H)).
Defined.

(** The trend strength enters the samples through the means only. *)
Lemma sample_trend (G : np.random.RandomState) (n_obs : Z) (trend_str vol : Q)
    (i k : nat) (a : Q) :
  sample G n_obs trend_str vol i !! k = Some a ->
  exists b, sample G n_obs 0 vol i !! k = Some b /\ a == b + trend_str * trend_offset i.
Proof.
  revert k a. induction i as [|j IH]; intros k a.
  - cbn [sample]. rewrite !list_lookup_fmap.
    destruct (deviates G n_obs 0 !! k) as [g|]; [|done].
    intros [= <-]. eexists. split; [reflexivity|].
    unfold year_mean. cbn [trend_offset]. ring.
  - cbn [sample]. unfold np.add, np.shift, np.scale.
    rewrite !lookup_zip_with, !list_lookup_fmap.
    destruct (sample G n_obs trend_str vol j !! k) as [p|] eqn:Hp; [|done].
    destruct (IH _ _ Hp) as (p0 & -> & Hp0).
    destruct (noise G n_obs vol (S j) !! k) as [e|]; [|done].
    intros [= <-]. eexists. split; [reflexivity|].
    cbn [trend_offset]. unfold year_mean. rewrite Hp0. ring.
Qed.

(** X5.  A run with trend strength [t] that returns differs from the run
    with trend strength 0, which returns as well, by a shift: every entry of
    period [i] is the entry of the run without trend plus [t] times
    [trend_offset i], the same for all entries of the period. *)
Theorem trend_shifts_every_entry (G : np.random.RandomState) (n_obs : Z) (trend_str vol : Q)
    (s : np.random.state G) (data : gmap Z (list Q)) (ys : list Z) :
  fst (generate_evolving_data G n_obs trend_str vol s) = Returned (data, ys) ->
  exists data0,
    fst (generate_evolving_data G n_obs 0 vol s) = Returned (data0, ys) /\
    forall i values k a,
      data !! (2010 + Z.of_nat i)%Z = Some values -> values !! k = Some a ->
      exists values0 b,
        data0 !! (2010 + Z.of_nat i)%Z = Some values0 /\ values0 !! k = Some b /\
        a == b + trend_str * trend_offset i.
Proof.
  intros (-> & -> & Hn & Hstd)%generate_returned_inv.
  exists (samples_upto G n_obs 0 vol 6). split.
  - by rewrite generate_returns.
  - intros i values k a (j & Hj & Hij & ->)%samples_upto_lookup_inv Ha.
    assert (j = i) as -> by lia.
    destruct (sample_trend _ _ _ _ _ _ _ Ha) as (b & Hb & Hab).
    exists (sample G n_obs 0 vol i), b. split; [|done].
    by apply samples_upto_lookup.
Qed.

Lemma trend_shifts_every_entry_witness :
  let G := mt19937.legacy (fun _ => 1) in
  fst (generate_evolving_data G 2 0.5 1 (mt19937.mt19937_seed 0)) =
    Returned (samples_upto G 2 0.5 1 6, range 2010 2016) /\
  exists data0,
    fst (generate_evolving_data G 2 0 1 (mt19937.mt19937_seed 0)) =
      Returned (data0, range 2010 2016) /\
    forall i values k a,
      samples_upto G 2 0.5 1 6 !! (2010 + Z.of_nat i)%Z = Some values ->
      values !! k = Some a ->
      exists values0 b,
        data0 !! (2010 + Z.of_nat i)%Z = Some values0 /\ values0 !! k = Some b /\
        a == b + 0.5 * trend_offset i.
Proof.
  intros G.
  assert (H : fst (generate_evolving_data G 2 0.5 1 (mt19937.mt19937_seed 0)) =
              Returned (samples_upto G 2 0.5 1 6, range 2010 2016)).
  { rewrite generate_returns; [reflexivity | lia |].
    intros j _.
    apply year_std_nonneg; [apply mt19937_facts.legacy_in_unit_interval | by compute]. }
  exact (conj H (trend_shifts_every_entry G 2 0.5 1 (mt19937.mt19937_seed 0) _ _ H)).
Defined.

(** The shift of the six periods for a trend of strength 1: about 0, 0.3,
    0.81, 1.47, 2.23 and 3.06, against 0 to 5 in the target means. *)
Example trend_offsets :
  Forall2 Qeq (trend_offset <$> seq 0 6)
    [0; 0.3; 0.81; 1.467; 2.2269; 3.05883].
Proof. repeat constructor. Qed.

(** ** [empirical_cdf]: what the two sequences say about the sample *)

(** X6.  The values [empirical_cdf] returns are the entries of the sample,
    each as often as in the sample, in ascending order. *)
Theorem empirical_cdf_sorted_values (data : list Q) :
  exists sorted_data y,
    empirical_cdf data = Returned (sorted_data, y) /\
    sorted_data ≡ₚ data /\
    StronglySorted Qle sorted_data.
Proof.
  eexists _, _. split; [apply empirical_cdf_eq|].
  split; [apply sort_Permutation | apply sort_sorted].
Qed.

(** X7.  The cumulative probabilities increase strictly, and each lies above
    0 and at most at 1. *)
Theorem empirical_cdf_strictly_increasing (data : list Q) :
  exists sorted_data y,
    empirical_cdf data = Returned (sorted_data, y) /\
    (forall i j a b, (i < j)%nat -> y !! i = Some a -> y !! j = Some b -> a < b) /\
    (forall i a, y !! i = Some a -> 0 < a /\ a <= 1).
Proof.
  eexists _, _. split; [apply empirical_cdf_eq|].
  assert (Hpos : forall i a,
             ((fun k => inject_Z k / inject_Z (len data)) <$> seqZ 1 (len data)) !! i = Some a ->
             0 < inject_Z (len data)).
  { intros i a [_ Hi]%cumulative_lookup.
    change 0 with (inject_Z 0). rewrite <- Zlt_Qlt. lia. }
  split.
  - intros i j a b Hij Ha Hb. pose proof (Hpos _ _ Ha) as Hn.
    apply cumulative_lookup in Ha as [-> _], Hb as [-> _].
    apply Qmult_lt_compat_r; [by apply Qinv_lt_0_compat|].
    rewrite <- Zlt_Qlt. lia.
  - intros i a Ha. pose proof (Hpos _ _ Ha) as Hn.
    apply cumulative_lookup in Ha as [-> Hi]. split.
    + apply Qlt_shift_div_l; [done|]. rewrite Qmult_0_l.
      change 0 with (inject_Z 0). rewrite <- Zlt_Qlt. lia.
    + apply Qle_shift_div_r; [done|]. rewrite Qmult_1_l.
      rewrite <- Zle_Qle. lia.
Qed.

Lemma count_le_Permutation (l l' : list Q) (v : Q) :
  l ≡ₚ l' -> count_le l v = count_le l' v.
Proof.
  unfold count_le.
  induction 1 as [|x l l' _ IH|x y l|l l' l'' _ IH1 _ IH2]; simpl.
  - done.
  - destruct (Qle_bool x v); simpl; lia.
  - destruct (Qle_bool x v), (Qle_bool y v); simpl; lia.
  - lia.
Qed.

Lemma count_le_none (l : list Q) (v : Q) :
  Forall (fun z => v < z) l -> count_le l v = 0%nat.
Proof.
  unfold count_le. induction 1 as [|z l Hz _ IH]; simpl; [done|].
  destruct (Qle_bool z v) eqn:E; [Qprop; lra | done].
Qed.

Lemma count_le_sorted (l : list Q) (i : nat) (v : Q) :
  StronglySorted Qle l -> l !! i = Some v ->
  (i < count_le l v)%nat /\
  ((forall w, l !! S i = Some w -> v < w) -> count_le l v = S i).
Proof.
  intros Hs. revert i. induction Hs as [|x l Hs IH Hx]; intros i Hi; [done|].
  unfold count_le in *. destruct i as [|i]; simplify_eq/=.
  - assert (E : Qle_bool v v = true) by (apply Qle_bool_iff; lra).
    rewrite E. simpl. split; [lia|]. intros Hnext. f_equal.
    apply count_le_none. destruct l as [|w l]; [constructor|].
    specialize (Hnext w eq_refl). inversion Hs; subst.
    constructor; [done|]. eapply Forall_impl; [eassumption|].
    intros z Hz. simpl in Hz. lra.
  - assert (E : Qle_bool x v = true).
    { apply Qle_bool_iff. rewrite Forall_forall in Hx.
      apply Hx. eapply list_elem_of_lookup_2, Hi. }
    rewrite E. simpl. destruct (IH _ Hi) as [H1 H2]. split; [lia|].
    intros Hnext. f_equal. by apply H2.
Qed.

(** X8.  The probability beside a value never exceeds the share of the
    sample that is at most this value, and it is this share wherever the
    next value is larger (so also at the last value): the pairs are points
    of the empirical distribution function of the sample. *)
Theorem empirical_cdf_counts (data : list Q) :
  exists sorted_data y,
    empirical_cdf data = Returned (sorted_data, y) /\
    forall i v, sorted_data !! i = Some v ->
      exists p,
        y !! i = Some p /\
        p <= inject_Z (Z.of_nat (count_le data v)) / inject_Z (len data) /\
        ((forall w, sorted_data !! S i = Some w -> v < w) ->
         p == inject_Z (Z.of_nat (count_le data v)) / inject_Z (len data)).
Proof.
  eexists _, _. split; [apply empirical_cdf_eq|].
  intros i v Hv.
  assert (Hi : (i < length data)%nat)
    by (apply lookup_lt_Some in Hv; by rewrite sort_length in Hv).
  assert (Hn : 0 < inject_Z (len data))
    by (change 0 with (inject_Z 0); rewrite <- Zlt_Qlt; unfold len; lia).
  destruct (count_le_sorted _ _ _ (sort_sorted data) Hv) as [Hge Heq].
  rewrite (count_le_Permutation _ _ v (sort_Permutation data)) in Hge, Heq.
  exists (inject_Z (1 + Z.of_nat i) / inject_Z (len data)). split; [|split].
  - rewrite list_lookup_fmap.
    assert (Hs : seqZ 1 (len data) !! i = Some (1 + Z.of_nat i)%Z)
      by (apply lookup_seqZ; unfold len; lia).
    by rewrite Hs.
  - apply Qmult_le_compat_r; [|apply Qinv_le_0_compat; lra].
    rewrite <- Zle_Qle. lia.
  - intros Hnext. rewrite (Heq Hnext).
    by replace (Z.of_nat (S i)) with (1 + Z.of_nat i)%Z by lia.
Qed.

Lemma sort_of_sorted (l : list Q) : StronglySorted Qle l -> np.sort l = l.
Proof.
  induction 1 as [|x l Hs IH Hx]; [done|]. simpl. rewrite IH.
  destruct l as [|z l]; [done|]. simpl.
  inversion Hx as [|? ? Hxz _]; subst.
  apply Qle_bool_iff in Hxz. by rewrite Hxz.
Qed.

(** X9.  Applied to the sorted values it returned, [empirical_cdf] returns
    the same two sequences again. *)
Theorem empirical_cdf_idempotent (data : list Q) :
  exists sorted_data y,
    empirical_cdf data = Returned (sorted_data, y) /\
    empirical_cdf sorted_data = Returned (sorted_data, y).
Proof.
  eexists _, _. split; [apply empirical_cdf_eq|].
  rewrite empirical_cdf_eq, (sort_of_sorted _ (sort_sorted data)).
  unfold len. by rewrite sort_length.
Qed.

(** ** The quartile markers: order and median *)

Lemma lerp_eq (a b t : Q) : np.lerp a b t == a + (b - a) * t.
Proof. unfold np.lerp. destruct (Qle_bool (1 # 2) t); ring. Qed.

Lemma Qfloor_unique (x : Q) (z : Z) :
  inject_Z z <= x -> x < inject_Z (z + 1) -> Qfloor x = z.
Proof.
  intros Hl Hu. pose proof (Qfloor_le x) as Hfl. pose proof (Qlt_floor x) as Hfu.
  assert (Qfloor x < z + 1)%Z by (rewrite Zlt_Qlt; lra).
  assert (z < Qfloor x + 1)%Z by (rewrite Zlt_Qlt; lra).
  lia.
Qed.

(** The two ways [np.quantile] takes its value: the last sorted entry, or
    the interpolation between the entries around the virtual index. *)
Lemma quantile_cases (arr : list Q) (q : Q) :
  arr <> [] -> 0 <= q ->
  let V := (inject_Z (len arr) - 1) * q in
  (inject_Z (len arr) - 1 <= V /\
   exists z v, last (np.sort arr) = Some z /\ np.quantile arr q = Returned v /\ v == z) \/
  (V < inject_Z (len arr) - 1 /\ 0 <= V /\
   exists a b,
     np.sort arr !! Z.to_nat (Qfloor V) = Some a /\
     np.sort arr !! S (Z.to_nat (Qfloor V)) = Some b /\
     np.quantile arr q = Returned (np.lerp a b (V - inject_Z (Qfloor V)))).
Proof.
  intros Hne Hq V. unfold np.quantile. fold V.
  assert (Hlen : (0 < length (np.sort arr))%nat).
  { rewrite sort_length. destruct arr; [done | simpl; lia]. }
  assert (Hn : inject_Z (len arr) == inject_Z (Z.of_nat (length (np.sort arr))))
    by (by rewrite sort_length).
  assert (Hn1 : 0 <= inject_Z (len arr) - 1).
  { assert (1 <= len arr)%Z by (unfold len; rewrite sort_length in Hlen; lia).
    assert (inject_Z 1 <= inject_Z (len arr)) by (by rewrite <- Zle_Qle).
    change (inject_Z 1) with 1 in *. lra. }
  assert (HV : 0 <= V) by (by apply Qmult_le_0_compat).
  destruct (Qle_bool (inject_Z (len arr) - 1) V) eqn:E1; Qprop.
  - left. split; [done|].
    destruct (getitem_list_last (np.sort arr)) as (z & -> & Hz);
      [intros Heq; rewrite Heq in Hlen; simpl in Hlen; lia|].
    exists z. eexists. split; [done|]. split; [reflexivity|]. apply lerp_same.
  - right. split; [done|]. split; [done|].
    destruct (Qltb V 0) eqn:E2; Qprop; [lra|].
    assert (Hf0 : (0 <= Qfloor V)%Z)
      by (change 0%Z with (Qfloor 0); by apply Qfloor_resp_le).
    pose proof (Qfloor_le V) as Hfl.
    assert (Hf1 : (Qfloor V + 1 < Z.of_nat (length (np.sort arr)))%Z).
    { rewrite Zlt_Qlt, <- Hn, inject_Z_plus. change (inject_Z 1) with 1. lra. }
    destruct (np.sort arr !! Z.to_nat (Qfloor V)) as [a|] eqn:Ha;
      [|apply lookup_ge_None in Ha; lia].
    destruct (np.sort arr !! S (Z.to_nat (Qfloor V))) as [b|] eqn:Hb;
      [|apply lookup_ge_None in Hb; lia].
    exists a, b. split; [done|]. split; [done|].
    rewrite (getitem_list_nonneg _ _ _ Hf0 Ha), outcome_bind_Returned.
    rewrite (getitem_list_nonneg _ (Qfloor V + 1) b); [reflexivity | lia |].
    by replace (Z.to_nat (Qfloor V + 1)) with (S (Z.to_nat (Qfloor V))) by lia.
Qed.

Lemma quantile_mono (arr : list Q) (q q' v v' : Q) :
  arr <> [] -> 0 <= q -> q <= q' ->
  np.quantile arr q = Returned v -> np.quantile arr q' = Returned v' -> v <= v'.
Proof.
  intros Hne Hq Hqq Hv Hv'.
  pose proof (sort_sorted arr) as Hs.
  assert (Hn1 : 0 <= inject_Z (len arr) - 1).
  { assert (1 <= len arr)%Z by (unfold len; destruct arr; [done | simpl; lia]).
    assert (inject_Z 1 <= inject_Z (len arr)) by (by rewrite <- Zle_Qle).
    change (inject_Z 1) with 1 in *. lra. }
  pose proof (quantile_cases arr q Hne Hq) as Hc.
  pose proof (quantile_cases arr q' Hne ltac:(lra)) as Hc'.
  cbv zeta in Hc, Hc'.
  set (V := (inject_Z (len arr) - 1) * q) in *.
  set (V' := (inject_Z (len arr) - 1) * q') in *.
  assert (HVV : V <= V') by (unfold V, V'; nra).
  pose proof (Qfloor_le V) as Hfl. pose proof (Qfloor_le V') as Hfl'.
  pose proof (Qlt_floor V) as Hfu. pose proof (Qlt_floor V') as Hfu'.
  rewrite inject_Z_plus in Hfu, Hfu'. change (inject_Z 1) with 1 in Hfu, Hfu'.
  set (f := Qfloor V) in *. set (f' := Qfloor V') in *.
  destruct Hc as [(H1 & z & w & Hz & Hw & Hwz)|(H1 & H0 & a & b & Ha & Hb & Hw)];
  destruct Hc' as [(H1' & z' & w' & Hz' & Hw' & Hwz')|(H1' & H0' & a' & b' & Ha' & Hb' & Hw')].
  - assert (v = w) as -> by congruence. assert (v' = w') as -> by congruence.
    assert (z = z') as -> by congruence. lra.
  - lra.
  - (* interpolated, then the last entry *)
    assert (v = np.lerp a b (V - inject_Z f)) as -> by congruence.
    assert (v' = w') as -> by congruence.
    rewrite last_lookup in Hz'.
    assert (Hab : a <= b) by (eapply StronglySorted_lookup_le; [exact Hs| |exact Ha|exact Hb]; lia).
    destruct (lerp_between a b (V - inject_Z f) Hab ltac:(lra) ltac:(lra)) as [_ Hle].
    assert (b <= z').
    { eapply StronglySorted_lookup_le; [exact Hs| |exact Hb|exact Hz'].
      apply lookup_lt_Some in Hb. lia. }
    lra.
  - (* both interpolated *)
    assert (v = np.lerp a b (V - inject_Z f)) as -> by congruence.
    assert (v' = np.lerp a' b' (V' - inject_Z f')) as -> by congruence.
    assert (Hff : (f <= f')%Z) by (by apply Qfloor_resp_le).
    assert (Hf0 : (0 <= f)%Z)
      by (change 0%Z with (Qfloor 0); by apply Qfloor_resp_le).
    assert (Hab : a <= b) by (eapply StronglySorted_lookup_le; [exact Hs| |exact Ha|exact Hb]; lia).
    assert (Hab' : a' <= b')
      by (eapply StronglySorted_lookup_le; [exact Hs| |exact Ha'|exact Hb']; lia).
    destruct (decide (f = f')) as [Heq|Hne'].
    + rewrite <- Heq in Ha', Hb', Hfu', Hfl' |- *.
      assert (a' = a) as -> by congruence. assert (b' = b) as -> by congruence.
      rewrite !lerp_eq. nra.
    + destruct (lerp_between a b (V - inject_Z f) Hab ltac:(lra) ltac:(lra)) as [_ Hle].
      destruct (lerp_between a' b' (V' - inject_Z f') Hab' ltac:(lra) ltac:(lra))
        as [Hge _].
      assert (b <= a').
      { eapply StronglySorted_lookup_le; [exact Hs| |exact Hb|exact Ha']. lia. }
      lra.
Qed.

Lemma quartile_markers_eq (data : list Q) (q25 q50 q75 : Q) :
  np.quantile data (25 / 100) = Returned q25 ->
  np.quantile data (50 / 100) = Returned q50 ->
  np.quantile data (75 / 100) = Returned q75 ->
  quartile_markers data =
    Returned {| x := [q25; q50; q75]; y := [0.25; 0.50; 0.75];
                mode := "markers"; name := "Quartiles";
                text := ["Q1 (25%)"; "Q2 (50%)"; "Q3 (75%)"] |}.
Proof.
  intros E25 E50 E75. unfold quartile_markers, np.percentile.
  change (forallb _ [25; 50; 75]) with true. cbn [mapM].
  rewrite E25, outcome_bind_Returned, E50, outcome_bind_Returned, E75.
  reflexivity.
Qed.

Lemma quantile_returns (data : list Q) (q : Q) :
  data <> [] -> 0 <= q -> exists v, np.quantile data q = Returned v.
Proof.
  intros Hne Hq.
  destruct (min_spec data Hne) as (lo & _ & Hlo).
  destruct (max_spec data Hne) as (hi & _ & Hhi).
  destruct (quantile_between data q lo hi Hne Hq Hlo Hhi) as (v & Hv & _). eauto.
Qed.

(** X10.  On a sample that is not empty the three markers are in order: the
    value at 25% is at most the value at 50%, which is at most the value at
    75%. *)
Theorem quartile_markers_ordered (data : list Q) :
  data <> [] ->
  exists markers q25 q50 q75,
    quartile_markers data = Returned markers /\
    x markers = [q25; q50; q75] /\
    q25 <= q50 /\ q50 <= q75.
Proof.
  intros Hne.
  destruct (quantile_returns data (25 / 100) Hne) as (q25 & E25); [by compute|].
  destruct (quantile_returns data (50 / 100) Hne) as (q50 & E50); [by compute|].
  destruct (quantile_returns data (75 / 100) Hne) as (q75 & E75); [by compute|].
  eexists _, q25, q50, q75.
  split; [by apply quartile_markers_eq|]. split; [reflexivity|]. split.
  - apply (quantile_mono data (25 / 100) (50 / 100)); [done | by compute | by compute | done..].
  - apply (quantile_mono data (50 / 100) (75 / 100)); [done | by compute | by compute | done..].
Qed.

Lemma quartile_markers_ordered_witness :
  [4; 1; 3; 2; 10] <> [] /\
  exists markers q25 q50 q75,
    quartile_markers [4; 1; 3; 2; 10] = Returned markers /\
    x markers = [q25; q50; q75] /\
    q25 <= q50 /\ q50 <= q75.
Proof.
  assert (H : [4; 1; 3; 2; 10] <> []) by discriminate.
  exact (conj H (quartile_markers_ordered [4; 1; 3; 2; 10] H)).
Defined.

(** X11.  In exact arithmetic, the marker at 50% is the median: the middle
    sorted value of a sample of odd length, the mean of the two middle
    sorted values of a sample of even length.  (In float64 the
    interpolation rounds, and overflows when the two middle values are
    more than the largest float64 apart.) *)
Theorem quartile_markers_median (data : list Q) :
  data <> [] ->
  exists markers q25 q50 q75,
    quartile_markers data = Returned markers /\
    x markers = [q25; q50; q75] /\
    (forall m z, length data = (2 * m + 1)%nat -> np.sort data !! m = Some z -> q50 == z) /\
    (forall m a b, length data = (2 * m + 2)%nat ->
       np.sort data !! m = Some a -> np.sort data !! S m = Some b -> q50 == (a + b) / 2).
Proof.
  intros Hne.
  destruct (quantile_returns data (25 / 100) Hne) as (q25 & E25); [by compute|].
  destruct (quantile_returns data (50 / 100) Hne) as (q50 & E50); [by compute|].
  destruct (quantile_returns data (75 / 100) Hne) as (q75 & E75); [by compute|].
  eexists _, q25, q50, q75.
  split; [by apply quartile_markers_eq|]. split; [reflexivity|].
  pose proof (quantile_cases data (50 / 100) Hne ltac:(by compute)) as Hc. cbv zeta in Hc.
  set (V := (inject_Z (len data) - 1) * (50 / 100)) in *.
  assert (Hhalf : V == (inject_Z (len data) - 1) / 2) by (unfold V; field).
  split.
  - intros m z Hlen Hz.
    assert (Hn : inject_Z (len data) == 2 * inject_Z (Z.of_nat m) + 1).
    { unfold len. rewrite Hlen.
      replace (Z.of_nat (2 * m + 1)) with (2 * Z.of_nat m + 1)%Z by lia.
      rewrite inject_Z_plus, inject_Z_mult. reflexivity. }
    assert (HV : V == inject_Z (Z.of_nat m)) by (rewrite Hhalf, Hn; field).
    destruct Hc as [(H1 & z' & w & Hz' & Hw & Hwz)|(H1 & H0 & a & b & Ha & Hb & Hw)].
    + assert (q50 = w) as -> by congruence. rewrite Hwz.
      assert (m = 0)%nat as ->.
      { assert (inject_Z (Z.of_nat m) <= 0) by lra.
        assert (Z.of_nat m <= 0)%Z by (rewrite Zle_Qle; done). lia. }
      rewrite last_lookup, sort_length, Hlen in Hz'. simpl in Hz'.
      assert (z' = z) as -> by congruence. reflexivity.
    + assert (Hf : Qfloor V = Z.of_nat m) by (rewrite HV; apply Qfloor_Z).
      rewrite Hf, Nat2Z.id in Ha. rewrite Hf in Hw.
      assert (a = z) as -> by congruence.
      assert (q50 = np.lerp z b (V - inject_Z (Z.of_nat m))) as -> by congruence.
      rewrite lerp_eq, HV. ring.
  - intros m a b Hlen Ha Hb.
    assert (Hn : inject_Z (len data) == 2 * inject_Z (Z.of_nat m) + 2).
    { unfold len. rewrite Hlen.
      replace (Z.of_nat (2 * m + 2)) with (2 * Z.of_nat m + 2)%Z by lia.
      rewrite inject_Z_plus, inject_Z_mult. reflexivity. }
    assert (HV : V == inject_Z (Z.of_nat m) + (1 # 2)) by (rewrite Hhalf, Hn; field).
    assert (Hm0 : 0 <= inject_Z (Z.of_nat m))
      by (change 0 with (inject_Z 0); rewrite <- Zle_Qle; lia).
    destruct Hc as [(H1 & z' & w & Hz' & Hw & Hwz)|(H1 & H0 & a' & b' & Ha' & Hb' & Hw)].
    + exfalso. lra.
    + assert (Hf : Qfloor V = Z.of_nat m).
      { apply Qfloor_unique; [lra|]. rewrite inject_Z_plus. change (inject_Z 1) with 1. lra. }
      rewrite Hf, Nat2Z.id in Ha', Hb'. rewrite Hf in Hw.
      assert (a' = a) as -> by congruence. assert (b' = b) as -> by congruence.
      assert (q50 = np.lerp a b (V - inject_Z (Z.of_nat m))) as -> by congruence.
      rewrite lerp_eq, HV. field.
Qed.

Lemma quartile_markers_median_witness :
  [4; 1; 3; 2; 10] <> [] /\
  exists markers q25 q50 q75,
    quartile_markers [4; 1; 3; 2; 10] = Returned markers /\
    x markers = [q25; q50; q75] /\
    (forall m z, length [4; 1; 3; 2; 10] = (2 * m + 1)%nat ->
       np.sort [4; 1; 3; 2; 10] !! m = Some z -> q50 == z) /\
    (forall m a b, length [4; 1; 3; 2; 10] = (2 * m + 2)%nat ->
       np.sort [4; 1; 3; 2; 10] !! m = Some a -> np.sort [4; 1; 3; 2; 10] !! S m = Some b ->
       q50 == (a + b) / 2).
Proof.
  assert (H : [4; 1; 3; 2; 10] <> []) by discriminate.
  exact (conj H (quartile_markers_median [4; 1; 3; 2; 10] H)).
Defined.

(** ** The animation: the whole page, the frames, the failures *)

Section AnimationTrace.
Context (data_dict : gmap Z (list Q)) (years : list Z).
Context (n_observations : Z) (animation_speed : Q).

Local Abbreviation frame_for := (frame_for data_dict n_observations).

Lemma frame_body_frame (x_min x_max : Q) (iy : nat * Z) (page : list call) :
  filled data_dict [snd iy] ->
  exists fig,
    frame_for x_min x_max (snd iy) fig /\
    frame_body data_dict years n_observations animation_speed false x_min x_max iy page =
    (Returned Continue, page ++ frame_calls years animation_speed iy fig).
Proof.
  destruct iy as [i year]. intros Hf.
  destruct (Hf year) as (v & Hv & Hne); [by left|].
  destruct (quartile_markers_returns v Hne) as (markers & Hm).
  exists (frame_of n_observations x_min x_max year v markers). split.
  - by exists v, markers.
  - unfold frame_body, frame_body_under.
    erewrite py_bind_Returned by call_run.
    erewrite py_bind_Returned by call_run.
    erewrite py_bind_Returned by (unfold lift, getitem; rewrite Hv; reflexivity).
    erewrite py_bind_Returned by (unfold lift, empirical_cdf; reflexivity).
    cbv beta iota.
    erewrite py_bind_Returned by (unfold lift; rewrite Hm; reflexivity).
    erewrite py_bind_Returned by call_run.
    erewrite py_bind_Returned by call_run.
    erewrite py_bind_Returned by call_run.
    unfold mret, py_ret, frame_calls. rewrite <- !app_assoc. reflexivity.
Qed.

Lemma loop_frames (x_min x_max : Q) (l : list (nat * Z)) (page : list call) :
  filled data_dict (snd <$> l) ->
  exists figs,
    Forall2 (fun iy fig => frame_for x_min x_max (snd iy) fig) l figs /\
    for_in l (frame_body data_dict years n_observations animation_speed false x_min x_max) page =
    (Returned tt, page ++ concat (zip_with (frame_calls years animation_speed) l figs)).
Proof.
  revert page. induction l as [|iy l IH]; intros page Hf.
  - exists []. split; [constructor|]. simpl. by rewrite app_nil_r.
  - destruct (frame_body_frame x_min x_max iy page) as (fig & Hfig & Hrun).
    { intros y ->%list_elem_of_singleton. apply Hf. by left. }
    destruct (IH (page ++ frame_calls years animation_speed iy fig))
      as (figs & Hfigs & Hloop).
    { intros y Hy. apply Hf. by right. }
    exists (fig :: figs). split; [by constructor|].
    cbn [for_in]. erewrite py_bind_Returned by exact Hrun.
    cbv beta iota. rewrite Hloop. cbn [zip_with concat]. by rewrite <- app_assoc.
Qed.

Lemma mapM_getitem_eq (ys : list Z) (page : list call) :
  filled data_dict ys ->
  mapM (fun year => lift (getitem data_dict year)) ys page =
  (Returned (omap (fun year => data_dict !! year) ys), page).
Proof.
  induction ys as [|year ys IH]; intros Hf; [done|].
  destruct (Hf year) as (v & Hv & Hne); [by left|].
  cbn [mapM omap list_omap].
  erewrite py_bind_Returned by (unfold lift, getitem; rewrite Hv; reflexivity).
  erewrite py_bind_Returned by (apply IH; intros y Hy; apply Hf; by right).
  rewrite Hv. reflexivity.
Qed.

Lemma all_values_nonempty :
  years <> [] -> filled data_dict years ->
  omap (fun year => data_dict !! year) years <> [] /\ all_values_of data_dict years <> [].
Proof.
  intros Hne Hf. unfold all_values_of.
  destruct years as [|year ys]; [done|].
  destruct (Hf year) as (v & Hv & Hv'); [by left|].
  cbn [omap list_omap]. rewrite Hv. split; [done|]. simpl. by destruct v.
Qed.

(** The block with the start button pressed and the stop flag clear, call
    by call. *)
Lemma animation_trace :
  years <> [] -> filled data_dict years ->
  exists lo hi figs,
    np.min (all_values_of data_dict years) = Returned lo /\
    np.max (all_values_of data_dict years) = Returned hi /\
    Forall2 (fun iy fig => frame_for (lo - 5) (hi + 5) (snd iy) fig) (enumerate years) figs /\
    animation data_dict years n_observations animation_speed true false [] =
    (Returned tt,
     [st_progress 0; st_empty]
     ++ concat (zip_with (frame_calls years animation_speed) (enumerate years) figs)
     ++ [progress_bar_empty; status_text_empty; st_success "🎉 Animation completed!"]).
Proof.
  intros Hne Hf. destruct (all_values_nonempty Hne Hf) as [Harr Hall].
  destruct (min_spec _ Hall) as (lo & Hlo & _). destruct (max_spec _ Hall) as (hi & Hhi & _).
  destruct (loop_frames (lo - 5) (hi + 5) (enumerate years) ([] ++ [st_progress 0] ++ [st_empty]))
    as (figs & Hfigs & Hloop).
  { unfold enumerate. by rewrite snd_zip by (rewrite length_seq; lia). }
  exists lo, hi, figs. split; [done|]. split; [done|]. split; [done|].
  unfold animation, animation_under.
  erewrite py_bind_Returned by call_run.
  erewrite py_bind_Returned by call_run.
  erewrite py_bind_Returned by (by apply mapM_getitem_eq).
  assert (Hcat : np.concatenate (omap (fun year => data_dict !! year) years) =
                 Returned (all_values_of data_dict years)).
  { unfold np.concatenate, all_values_of.
    by destruct (omap (fun year => data_dict !! year) years). }
  erewrite py_bind_Returned by (unfold lift; rewrite Hcat; reflexivity).
  erewrite py_bind_Returned by (unfold lift; rewrite Hlo; reflexivity).
  erewrite py_bind_Returned by (unfold lift; rewrite Hhi; reflexivity).
  erewrite py_bind_Returned by exact Hloop.
  erewrite py_bind_Returned by call_run.
  erewrite py_bind_Returned by call_run.
  rewrite do_run. f_equal. simpl. rewrite <- !app_assoc. reflexivity.
Qed.

Lemma frames_of_calls (l : list (nat * Z)) (figs : list figure) :
  length l = length figs ->
  frames (concat (zip_with (frame_calls years animation_speed) l figs)) = figs.
Proof.
  revert figs. induction l as [|iy l IH]; intros [|fig figs] Hlen; simplify_eq/=; [done|].
  unfold frames in *. cbn. f_equal. by apply IH.
Qed.

End AnimationTrace.

Lemma animation_frames (data_dict : gmap Z (list Q)) (years : list Z)
    (n_observations : Z) (animation_speed : Q) :
  years <> [] -> filled data_dict years ->
  exists lo hi page,
    np.min (all_values_of data_dict years) = Returned lo /\
    np.max (all_values_of data_dict years) = Returned hi /\
    animation data_dict years n_observations animation_speed true false [] =
      (Returned tt, page) /\
    Forall2 (frame_for data_dict n_observations (lo - 5) (hi + 5)) years (frames page).
Proof.
  intros Hne Hf.
  destruct (animation_trace data_dict years n_observations animation_speed Hne Hf)
    as (lo & hi & figs & Hlo & Hhi & Hfigs & Hrun).
  exists lo, hi. eexists. split; [done|]. split; [done|]. split; [exact Hrun|].
  unfold frames. rewrite !omap_app. cbn [omap list_omap app].
  rewrite app_nil_r.
  fold (frames (concat (zip_with (frame_calls years animation_speed) (enumerate years) figs))).
  rewrite frames_of_calls by (by apply Forall2_length in Hfigs).
  apply Forall2_fmap_l in Hfigs.
  unfold enumerate in Hfigs. by rewrite snd_zip in Hfigs by (rewrite length_seq; lia).
Qed.

Lemma elem_of_all_values (data_dict : gmap Z (list Q)) (years : list Z) (year : Z)
    (v : list Q) (z : Q) :
  year ∈ years -> data_dict !! year = Some v -> z ∈ v -> z ∈ all_values_of data_dict years.
Proof.
  intros Hy Hv Hz. unfold all_values_of.
  apply list_elem_of_In, in_concat. exists v. split; [|by apply list_elem_of_In].
  apply list_elem_of_In, list_elem_of_omap. eauto.
Qed.

(** X12.  With the start button pressed, the stop flag clear and a sample
    that is not empty for every year of the list, the block makes these
    calls and no other, when no click disturbs the run: the progress bar at
    0 and the placeholder; for each year in turn the progress value, the
    text naming the year, the container of the plot placeholder, the figure
    of the year in it and a pause of [animation_speed]; then the two
    clearings and the completion message. *)
Theorem animation_page (data_dict : gmap Z (list Q)) (years : list Z)
    (n_observations : Z) (animation_speed : Q) :
  years <> [] -> filled data_dict years ->
  exists figs,
    title_year <$> figs = years /\
    animation data_dict years n_observations animation_speed true false [] =
    (Returned tt,
     [st_progress 0; st_empty]
     ++ concat (zip_with (fun iy fig =>
                  [progress_bar_progress (inject_Z (Z.of_nat (fst iy) + 1) / inject_Z (len years));
                   status_text_text ("Showing year: " +:+ pretty (snd iy));
                   plot_placeholder_container;
                   st_plotly_chart fig;
                   time_sleep animation_speed])
                (enumerate years) figs)
     ++ [progress_bar_empty; status_text_empty; st_success "🎉 Animation completed!"]).
Proof.
  intros Hne Hf.
  destruct (animation_trace data_dict years n_observations animation_speed Hne Hf)
    as (lo & hi & figs & _ & _ & Hfigs & Hrun).
  exists figs. split; [|exact Hrun].
  apply Forall2_fmap_l in Hfigs.
  unfold enumerate in Hfigs. rewrite snd_zip in Hfigs by (rewrite length_seq; lia).
  clear Hrun Hne Hf. induction Hfigs as [|year fig ys figs Hfig _ IH]; [done|].
  cbn. rewrite IH. f_equal.
  destruct Hfig as (v & markers & _ & _ & _ & ->). reflexivity.
Qed.

Lemma animation_page_witness :
  range 2010 2016 <> [] /\ filled example_data (range 2010 2016) /\
  exists figs,
    title_year <$> figs = range 2010 2016 /\
    animation example_data (range 2010 2016) 3 1 true false [] =
    (Returned tt,
     [st_progress 0; st_empty]
     ++ concat (zip_with (fun iy fig =>
                  [progress_bar_progress
                     (inject_Z (Z.of_nat (fst iy) + 1) / inject_Z (len (range 2010 2016)));
                   status_text_text ("Showing year: " +:+ pretty (snd iy));
                   plot_placeholder_container;
                   st_plotly_chart fig;
                   time_sleep 1])
                (enumerate (range 2010 2016)) figs)
     ++ [progress_bar_empty; status_text_empty; st_success "🎉 Animation completed!"]).
Proof.
  assert (H : range 2010 2016 <> []) by discriminate.
  exact (conj H (conj example_data_filled
    (animation_page example_data (range 2010 2016) 3 1 H example_data_filled))).
Defined.

(** X13.  Every figure a run shows belongs to one year of the list, in the
    order of the list: its line is the empirical CDF of the sample the dict
    has for this year, its markers are the quartile markers of this sample,
    and its title names this year and the number of observations the block
    was given. *)
Theorem animation_frame_content (data_dict : gmap Z (list Q)) (years : list Z)
    (n_observations : Z) (animation_speed : Q) :
  years <> [] -> filled data_dict years ->
  exists page,
    animation data_dict years n_observations animation_speed true false [] =
      (Returned tt, page) /\
    Forall2 (fun year fig =>
               exists v,
                 data_dict !! year = Some v /\
                 empirical_cdf v = Returned (x (cdf_line fig), y (cdf_line fig)) /\
                 quartile_markers v = Returned (quartiles fig) /\
                 title_year fig = year /\
                 title_sample_size fig = n_observations)
            years (frames page).
Proof.
  intros Hne Hf.
  destruct (animation_frames data_dict years n_observations animation_speed Hne Hf)
    as (lo & hi & page & _ & _ & Hrun & Hfigs).
  exists page. split; [exact Hrun|].
  eapply Forall2_impl; [exact Hfigs|].
  intros year fig (v & markers & Hv & _ & Hm & ->). exists v. by repeat split.
Qed.

Lemma animation_frame_content_witness :
  range 2010 2016 <> [] /\ filled example_data (range 2010 2016) /\
  exists page,
    animation example_data (range 2010 2016) 3 1 true false [] = (Returned tt, page) /\
    Forall2 (fun year fig =>
               exists v,
                 example_data !! year = Some v /\
                 empirical_cdf v = Returned (x (cdf_line fig), y (cdf_line fig)) /\
                 quartile_markers v = Returned (quartiles fig) /\
                 title_year fig = year /\
                 title_sample_size fig = 3%Z)
            (range 2010 2016) (frames page).
Proof.
  assert (H : range 2010 2016 <> []) by discriminate.
  exact (conj H (conj example_data_filled
    (animation_frame_content example_data (range 2010 2016) 3 1 H example_data_filled))).
Defined.

(** X14.  All figures of a run have the same axes: the x axis from 5 below
    the least to 5 above the greatest of all the values of all the years,
    the y axis from 0 to 1.  Every value on the line of a figure lies
    between that least and that greatest value, and every probability a
    figure plots, on its line or as a marker, lies above 0 and at most at
    1. *)
Theorem animation_axes (data_dict : gmap Z (list Q)) (years : list Z)
    (n_observations : Z) (animation_speed : Q) :
  years <> [] -> filled data_dict years ->
  exists lo hi page,
    np.min (all_values_of data_dict years) = Returned lo /\
    np.max (all_values_of data_dict years) = Returned hi /\
    animation data_dict years n_observations animation_speed true false [] =
      (Returned tt, page) /\
    forall fig, fig ∈ frames page ->
      xaxis_range fig = (lo - 5, hi + 5) /\
      yaxis_range fig = (0, 1) /\
      (forall z, z ∈ x (cdf_line fig) -> lo <= z /\ z <= hi) /\
      (forall p, p ∈ y (cdf_line fig) ++ y (quartiles fig) -> 0 < p /\ p <= 1).
Proof.
  intros Hne Hf.
  destruct (animation_frames data_dict years n_observations animation_speed Hne Hf)
    as (lo & hi & page & Hlo & Hhi & Hrun & Hfigs).
  exists lo, hi, page. split; [done|]. split; [done|]. split; [done|].
  intros fig Hfig.
  apply list_elem_of_lookup in Hfig as [i Hi].
  destruct (Forall2_lookup_r _ _ _ _ _ Hfigs Hi) as (year & Hyear & v & markers & Hv & Hv' & Hm & ->).
  assert (Hy : year ∈ years) by (by eapply list_elem_of_lookup_2).
  assert (Hall : all_values_of data_dict years <> []).
  { intros E. rewrite E in Hlo. discriminate. }
  destruct (min_spec _ Hall) as (lo' & Hlo' & Hmin).
  destruct (max_spec _ Hall) as (hi' & Hhi' & Hmax).
  assert (lo' = lo) as -> by congruence. assert (hi' = hi) as -> by congruence.
  rewrite Forall_forall in Hmin, Hmax.
  assert (Hvlo : Forall (Qle lo) v).
  { apply Forall_forall. intros z Hz. apply Hmin. by eapply elem_of_all_values. }
  assert (Hvhi : Forall (fun z => z <= hi) v).
  { apply Forall_forall. intros z Hz. apply Hmax. by eapply elem_of_all_values. }
  destruct (quartile_markers_between v lo hi Hv' Hvlo Hvhi)
    as (q25 & q50 & q75 & Hm' & B25 & B50 & B75).
  assert (markers = {| x := [q25; q50; q75]; y := [0.25; 0.50; 0.75];
                       mode := "markers"; name := "Quartiles";
                       text := ["Q1 (25%)"; "Q2 (50%)"; "Q3 (75%)"] |}) as -> by congruence.
  split; [reflexivity|]. split; [reflexivity|]. split.
  - cbn [frame_of cdf_line quartiles x]. intros z Hz.
    rewrite sort_Permutation in Hz. rewrite Forall_forall in Hvlo, Hvhi. auto.
  - cbn [frame_of cdf_line quartiles y]. intros p [Hp|Hp]%elem_of_app.
    + apply list_elem_of_lookup in Hp as [k Hk].
      unfold np.true_divide, np.arange in Hk.
      replace (len v + 1 - 1)%Z with (len v) in Hk by lia.
      assert (Hn : 0 < inject_Z (len v)).
      { apply cumulative_lookup in Hk as [_ Hlt].
        change 0 with (inject_Z 0). rewrite <- Zlt_Qlt. lia. }
      apply cumulative_lookup in Hk as [-> Hlt]. split.
      * apply Qlt_shift_div_l; [done|]. rewrite Qmult_0_l.
        change 0 with (inject_Z 0). rewrite <- Zlt_Qlt. lia.
      * apply Qle_shift_div_r; [done|]. rewrite Qmult_1_l. rewrite <- Zle_Qle. lia.
    + repeat (apply elem_of_cons in Hp as [->|Hp]; [by compute|]). by apply elem_of_nil in Hp.
Qed.

Lemma animation_axes_witness :
  range 2010 2016 <> [] /\ filled example_data (range 2010 2016) /\
  exists lo hi page,
    np.min (all_values_of example_data (range 2010 2016)) = Returned lo /\
    np.max (all_values_of example_data (range 2010 2016)) = Returned hi /\
    animation example_data (range 2010 2016) 3 1 true false [] = (Returned tt, page) /\
    forall fig, fig ∈ frames page ->
      xaxis_range fig = (lo - 5, hi + 5) /\
      yaxis_range fig = (0, 1) /\
      (forall z, z ∈ x (cdf_line fig) -> lo <= z /\ z <= hi) /\
      (forall p, p ∈ y (cdf_line fig) ++ y (quartiles fig) -> 0 < p /\ p <= 1).
Proof.
  assert (H : range 2010 2016 <> []) by discriminate.
  exact (conj H (conj example_data_filled
    (animation_axes example_data (range 2010 2016) 3 1 H example_data_filled))).
Defined.

Lemma mapM_getitem_missing (data_dict : gmap Z (list Q)) (ys : list Z) (year : Z)
    (page : list call) :
  year ∈ ys -> data_dict !! year = None ->
  exists missing,
    missing ∈ ys /\ data_dict !! missing = None /\
    mapM (fun y => lift (getitem data_dict y)) ys page = (Raised (KeyError missing), page).
Proof.
  induction ys as [|y ys IH]; intros Hy Hnone; [by apply elem_of_nil in Hy|].
  cbn [mapM]. destruct (data_dict !! y) as [v|] eqn:Hv.
  - apply elem_of_cons in Hy as [->|Hy]; [congruence|].
    destruct (IH Hy Hnone) as (missing & Hm & Hm' & Hrun).
    exists missing. split; [by right|]. split; [done|].
    erewrite py_bind_Returned by (unfold lift, getitem; rewrite Hv; reflexivity).
    by erewrite py_bind_Raised by exact Hrun.
  - exists y. split; [by left|]. split; [done|].
    by erewrite py_bind_Raised by (unfold lift, getitem; rewrite Hv; reflexivity).
Qed.

(** X15.  If the dict has no sample for some year of the list, the block
    raises [KeyError] for a year that is missing, whatever the stop flag,
    when only the progress bar and the placeholder are on the page: no
    frame is shown, not even for the years that have a sample. *)
Theorem animation_missing_year (data_dict : gmap Z (list Q)) (years : list Z)
    (n_observations : Z) (animation_speed : Q) (stop_animation : bool) (year : Z) :
  year ∈ years -> data_dict !! year = None ->
  exists missing,
    missing ∈ years /\ data_dict !! missing = None /\
    animation data_dict years n_observations animation_speed true stop_animation [] =
    (Raised (KeyError missing), [st_progress 0; st_empty]).
Proof.
  intros Hy Hnone.
  destruct (mapM_getitem_missing data_dict years year [st_progress 0; st_empty] Hy Hnone)
    as (missing & Hm & Hm' & Hrun).
  exists missing. split; [done|]. split; [done|]. unfold animation, animation_under.
  erewrite py_bind_Returned by call_run.
  erewrite py_bind_Returned by call_run.
  by erewrite py_bind_Raised by exact Hrun.
Qed.

Lemma animation_missing_year_witness :
  2016%Z ∈ [2010; 2016]%Z /\ example_data !! 2016%Z = None /\
  exists missing,
    missing ∈ [2010; 2016]%Z /\ example_data !! missing = None /\
    animation example_data [2010; 2016]%Z 3 1 true false [] =
    (Raised (KeyError missing), [st_progress 0; st_empty]).
Proof.
  assert (Hy : 2016%Z ∈ [2010; 2016]%Z) by (right; left).
  assert (Hn : example_data !! 2016%Z = None) by reflexivity.
  exact (conj Hy (conj Hn (animation_missing_year example_data [2010; 2016]%Z 3 1 false 2016 Hy Hn))).
Defined.

Lemma animation_all_empty (data_dict : gmap Z (list Q)) (years : list Z)
    (n_observations : Z) (animation_speed : Q) (stop_animation : bool) :
  years <> [] -> (forall year, year ∈ years -> data_dict !! year = Some []) ->
  animation data_dict years n_observations animation_speed true stop_animation [] =
  (Raised (ValueError "zero-size array to reduction operation minimum which has no identity"),
   [st_progress 0; st_empty]).
Proof.
  intros Hne Hempty.
  assert (Hrun : forall ys (page : list call),
            (forall year, year ∈ ys -> data_dict !! year = Some []) ->
            mapM (fun y => lift (getitem data_dict y)) ys page =
            (Returned (replicate (length ys) []), page)).
  { induction ys as [|y ys IH]; intros page Hys; [done|]. cbn [mapM].
    erewrite py_bind_Returned
      by (unfold lift, getitem; rewrite (Hys y) by (by left); reflexivity).
    erewrite py_bind_Returned by (apply IH; intros; apply Hys; by right).
    reflexivity. }
  unfold animation, animation_under.
  erewrite py_bind_Returned by call_run.
  erewrite py_bind_Returned by call_run.
  erewrite py_bind_Returned by (by apply Hrun).
  assert (Hcat : np.concatenate (replicate (length years) ([] : list Q)) = Returned []).
  { destruct years as [|y ys]; [done|]. unfold np.concatenate. cbn [length replicate].
    f_equal. simpl. induction (length ys); [done|]. done. }
  erewrite py_bind_Returned by (unfold lift; rewrite Hcat; reflexivity).
  reflexivity.
Qed.

(** X16.  If every year of the list has the empty sample, the block raises
    numpy's [ValueError] at the minimum of no values, whatever the stop
    flag, when only the progress bar and the placeholder are on the page. *)
Theorem animation_empty_samples (data_dict : gmap Z (list Q)) (years : list Z)
    (n_observations : Z) (animation_speed : Q) (stop_animation : bool) :
  years <> [] -> (forall year, year ∈ years -> data_dict !! year = Some []) ->
  exists msg,
    animation data_dict years n_observations animation_speed true stop_animation [] =
    (Raised (ValueError msg), [st_progress 0; st_empty]).
Proof. intros Hne Hempty. eexists. by apply animation_all_empty. Qed.

Lemma animation_empty_samples_witness :
  [2010%Z] <> [] /\
  (forall year, year ∈ [2010%Z] -> ({[2010%Z := []]} : gmap Z (list Q)) !! year = Some []) /\
  exists msg,
    animation {[2010%Z := []]} [2010%Z] 0 1 true false [] =
    (Raised (ValueError msg), [st_progress 0; st_empty]).
Proof.
  assert (H : [2010%Z] <> []) by discriminate.
  assert (He : forall year, year ∈ [2010%Z] ->
                 ({[2010%Z := []]} : gmap Z (list Q)) !! year = Some []).
  { intros year ->%list_elem_of_singleton. apply lookup_singleton_eq. }
  exact (conj H (conj He (animation_empty_samples {[2010%Z := []]} [2010%Z] 0 1 false H He))).
Defined.

(** X17.  What the generator returns for at least one observation, the
    animation shows in full: one frame for each of the years 2010 to 2015,
    in this order, each with [n_obs] points on its line, the number its
    title names, and then the completion message. *)
Theorem generated_data_animated (G : np.random.RandomState) (n_obs : Z) (trend_str vol : Q)
    (s : np.random.state G) (data : gmap Z (list Q)) (ys : list Z) (animation_speed : Q) :
  fst (generate_evolving_data G n_obs trend_str vol s) = Returned (data, ys) ->
  (1 <= n_obs)%Z ->
  exists page,
    animation data ys n_obs animation_speed true false [] = (Returned tt, page) /\
    title_year <$> frames page = [2010; 2011; 2012; 2013; 2014; 2015]%Z /\
    (forall fig, fig ∈ frames page ->
       len (x (cdf_line fig)) = n_obs /\ len (y (cdf_line fig)) = n_obs /\
       title_sample_size fig = n_obs) /\
    announced_completion page.
Proof.
  intros Hgen Hn.
  pose proof (generated_data_filled G n_obs trend_str vol s data ys Hgen Hn) as Hf.
  pose proof Hgen as (_ & Hys & _ & _)%generate_returned_inv.
  assert (Hne : ys <> []) by (by rewrite Hys).
  destruct (animation_frames data ys n_obs animation_speed Hne Hf)
    as (lo & hi & page & _ & _ & Hrun & Hfigs).
  destruct (animation_run data ys n_obs animation_speed false Hne Hf)
    as (page' & Hrun' & _ & _ & Hdone).
  assert (page' = page) as -> by congruence.
  exists page. split; [done|]. split; [|split; [|done]].
  - rewrite <- (years_eq), <- Hys. clear -Hfigs.
    induction Hfigs as [|year fig l figs Hfig _ IH]; [done|].
    cbn. rewrite IH. f_equal. by destruct Hfig as (v & markers & _ & _ & _ & ->).
  - intros fig Hfig. apply list_elem_of_lookup in Hfig as [i Hi].
    destruct (Forall2_lookup_r _ _ _ _ _ Hfigs Hi)
      as (year & Hyear & v & markers & Hv & _ & _ & ->).
    pose proof (generated_sample_length G n_obs trend_str vol s data ys year v Hgen Hv) as Hlen.
    cbn [frame_of cdf_line x y title_sample_size]. split; [|split; [|done]].
    + unfold len in *. by rewrite sort_length.
    + unfold len in *. unfold np.true_divide, np.arange.
      rewrite length_fmap, length_seqZ. lia.
Qed.

Lemma generated_data_animated_witness :
  let G := mt19937.legacy (fun _ => 1) in
  fst (generate_evolving_data G 2 0.5 1 (mt19937.mt19937_seed 0)) =
    Returned (samples_upto G 2 0.5 1 6, range 2010 2016) /\
  (1 <= 2)%Z /\
  exists page,
    animation (samples_upto G 2 0.5 1 6) (range 2010 2016) 2 1 true false [] =
      (Returned tt, page) /\
    title_year <$> frames page = [2010; 2011; 2012; 2013; 2014; 2015]%Z /\
    (forall fig, fig ∈ frames page ->
       len (x (cdf_line fig)) = 2%Z /\ len (y (cdf_line fig)) = 2%Z /\
       title_sample_size fig = 2%Z) /\
    announced_completion page.
Proof.
  intros G.
  assert (H : fst (generate_evolving_data G 2 0.5 1 (mt19937.mt19937_seed 0)) =
              Returned (samples_upto G 2 0.5 1 6, range 2010 2016)).
  { rewrite generate_returns; [reflexivity | lia |].
    intros j _.
    apply year_std_nonneg; [apply mt19937_facts.legacy_in_unit_interval | by compute]. }
  assert (Hn : (1 <= 2)%Z) by lia.
  exact (conj H (conj Hn
    (generated_data_animated G 2 0.5 1 (mt19937.mt19937_seed 0) _ _ 1 H Hn))).
Defined.

(** X18.  What the generator returns for no observation, the animation
    cannot show: it raises numpy's [ValueError] before the first frame. *)
Theorem generated_empty_data_not_animated (G : np.random.RandomState) (trend_str vol : Q)
    (s : np.random.state G) (data : gmap Z (list Q)) (ys : list Z)
    (animation_speed : Q) (stop_animation : bool) :
  fst (generate_evolving_data G 0 trend_str vol s) = Returned (data, ys) ->
  exists msg,
    animation data ys 0 animation_speed true stop_animation [] =
    (Raised (ValueError msg), [st_progress 0; st_empty]).
Proof.
  intros Hgen. pose proof Hgen as (-> & -> & _ & _)%generate_returned_inv.
  eexists. apply animation_all_empty; [done|].
  intros year [Hy1 Hy2]%elem_of_seqZ.
  replace year with (2010 + Z.of_nat (Z.to_nat (year - 2010)))%Z by lia.
  rewrite samples_upto_lookup by lia. f_equal.
  apply length_zero_iff_nil. by rewrite sample_length.
Qed.

Lemma generated_empty_data_not_animated_witness :
  let G := mt19937.legacy (fun _ => 1) in
  fst (generate_evolving_data G 0 0.5 1 (mt19937.mt19937_seed 0)) =
    Returned (samples_upto G 0 0.5 1 6, range 2010 2016) /\
  exists msg,
    animation (samples_upto G 0 0.5 1 6) (range 2010 2016) 0 1 true false [] =
    (Raised (ValueError msg), [st_progress 0; st_empty]).
Proof.
  intros G.
  assert (H : fst (generate_evolving_data G 0 0.5 1 (mt19937.mt19937_seed 0)) =
              Returned (samples_upto G 0 0.5 1 6, range 2010 2016)).
  { rewrite generate_returns; [reflexivity | lia |].
    intros j _.
    apply year_std_nonneg; [apply mt19937_facts.legacy_in_unit_interval | by compute]. }
  exact (conj H
    (generated_empty_data_not_animated G 0.5 1 (mt19937.mt19937_seed 0) _ _ 1 false H)).
Defined.

(** ** The summary table *)

Lemma foldl_Qmin_elem (x0 : Q) (l : list Q) : foldl Qmin x0 l ∈ x0 :: l.
Proof.
  revert x0. induction l as [|z l IH]; intros x0; simpl; [by left|].
  specialize (IH (Qmin x0 z)). apply elem_of_cons in IH as [->|IH].
  - unfold Qmin, GenericMinMax.gmin. destruct (x0 ?= z); [by left | by left | right; by left].
  - by do 2 right.
Qed.

Lemma foldl_Qmax_elem (x0 : Q) (l : list Q) : foldl Qmax x0 l ∈ x0 :: l.
Proof.
  revert x0. induction l as [|z l IH]; intros x0; simpl; [by left|].
  specialize (IH (Qmax x0 z)). apply elem_of_cons in IH as [->|IH].
  - unfold Qmax, GenericMinMax.gmax. destruct (x0 ?= z); [by left | right; by left | by left].
  - by do 2 right.
Qed.

Section SummaryTable.
Context (sqrt : Q -> Q) (data_dict : gmap Z (list Q)).

Local Abbreviation row_of := (row_of sqrt data_dict).

Lemma stats_row_run (year : Z) (v : list Q) :
  data_dict !! year = Some v -> v <> [] ->
  exists row,
    row_of year row /\
    (values ← getitem data_dict year;
     lo ← np.min values;
     hi ← np.max values;
     mret {| Year := year; Mean := np.mean values; Std_Dev := np.std sqrt values;
             Min := lo; Max := hi |}) = Returned row.
Proof.
  intros Hv Hne. unfold getitem. rewrite Hv, outcome_bind_Returned.
  destruct v as [|z v]; [done|]. cbn [np.min np.max].
  rewrite !outcome_bind_Returned. eexists. split; [|reflexivity].
  exists (z :: v). cbn [Year Min Max Mean Std_Dev].
  destruct (foldl_Qmin_le z v) as [H1 H2]. destruct (foldl_Qmax_ge z v) as [H3 H4].
  rewrite Forall_forall in H2, H4.
  split; [done|]. split; [done|].
  split; [apply foldl_Qmin_elem|]. split; [apply foldl_Qmax_elem|].
  split; [|done].
  intros y [->|Hy]%elem_of_cons; [done|]. split; [by apply H2 | by apply H4].
Qed.

Lemma row_of_ordered (year : Z) (row : stats_row) : row_of year row -> Min row <= Max row.
Proof. intros (v & _ & _ & Hmin & _ & Hb & _). by apply Hb. Qed.

Lemma rows_in_order (years : list Z) (rows : list stats_row) :
  Forall2 row_of years rows -> Year <$> rows = years.
Proof.
  induction 1 as [|year row ys rows Hrow _ IH]; [done|].
  cbn. rewrite IH. f_equal. by destruct Hrow as (v & _ & -> & _).
Qed.

Lemma stats_data_filled (years : list Z) :
  filled data_dict years ->
  exists rows, stats_data sqrt data_dict years = Returned rows /\ Forall2 row_of years rows.
Proof.
  unfold stats_data. induction years as [|year ys IH]; intros Hf.
  - exists []. split; [done | constructor].
  - destruct (Hf year) as (v & Hv & Hne); [by left|].
    destruct (stats_row_run year v Hv Hne) as (row & Hrow & Hrun).
    destruct IH as (rows & Hrows & Hall); [intros y Hy; apply Hf; by right|].
    exists (row :: rows). split; [|by constructor].
    cbn [mapM]. rewrite Hrun, outcome_bind_Returned, Hrows. reflexivity.
Qed.

Lemma stats_data_raised (years : list Z) (e : exception) :
  stats_data sqrt data_dict years = Raised e ->
  (exists year, year ∈ years /\ data_dict !! year = None /\ e = KeyError year) \/
  (exists year msg, year ∈ years /\ data_dict !! year = Some [] /\ e = ValueError msg).
Proof.
  unfold stats_data. induction years as [|year ys IH]; [done|]. cbn [mapM].
  destruct (data_dict !! year) as [v|] eqn:Hv.
  - destruct v as [|z v].
    + unfold getitem. rewrite Hv. cbn. intros [= <-].
      right. exists year. eexists. split; [by left|]. done.
    + destruct (stats_row_run year (z :: v) Hv) as (row & _ & ->); [done|].
      rewrite outcome_bind_Returned.
      destruct (mapM _ ys) as [rows|e'] eqn:Hrest; [done|]. cbn. intros [= <-].
      destruct (IH eq_refl) as [(y & Hy & Hy' & ->)|(y & msg & Hy & Hy' & ->)].
      * left. exists y. split; [by right | done].
      * right. exists y, msg. split; [by right | done].
  - unfold getitem. rewrite Hv. cbn. intros [= <-].
    left. exists year. split; [by left | done].
Qed.

End SummaryTable.

Lemma stats_data_returned_inv (sqrt : Q -> Q) (data_dict : gmap Z (list Q)) (years : list Z)
    (rows : list stats_row) :
  stats_data sqrt data_dict years = Returned rows -> filled data_dict years.
Proof.
  unfold stats_data. revert rows. induction years as [|year ys IH]; intros rows.
  - intros _ y Hy. by apply elem_of_nil in Hy.
  - cbn [mapM].
    destruct (data_dict !! year) as [v|] eqn:Hv;
      [|by (unfold getitem; rewrite Hv)].
    destruct v as [|z v]; [by (unfold getitem; rewrite Hv)|].
    destruct (mapM _ ys) as [rows'|e] eqn:Hrest;
      [|by (unfold getitem; rewrite Hv)].
    intros _ y [->|Hy]%elem_of_cons.
    + by exists (z :: v).
    + by eapply IH.
Qed.

(** X19.  The summary table is built exactly when every year of the list
    has a sample in the dict that is not empty. *)
Theorem stats_data_returns_iff (sqrt : Q -> Q) (data_dict : gmap Z (list Q))
    (years : list Z) :
  (exists rows, stats_data sqrt data_dict years = Returned rows) <-> filled data_dict years.
Proof.
  split.
  - intros [rows Hrows]. by eapply stats_data_returned_inv.
  - intros Hf. destruct (stats_data_filled sqrt data_dict years Hf) as (rows & Hrows & _).
    eauto.
Qed.

(** X20.  When every year of the list has a sample that is not empty, the
    table has one row per year of the list, in the order of the list, and
    in every row the least value is not above the greatest.  (A row of the
    model keeps the numbers that the script formats with two decimals.) *)
Theorem stats_data_rows (sqrt : Q -> Q) (data_dict : gmap Z (list Q)) (years : list Z) :
  filled data_dict years ->
  exists rows,
    stats_data sqrt data_dict years = Returned rows /\
    Year <$> rows = years /\
    Forall (fun row => Min row <= Max row) rows.
Proof.
  intros Hf. destruct (stats_data_filled sqrt data_dict years Hf) as (rows & Hrows & Hall).
  exists rows. split; [done|]. split; [by eapply rows_in_order|].
  clear -Hall. induction Hall as [|year row ys rows Hrow _ IH]; constructor; [|done].
  by eapply row_of_ordered.
Qed.

Lemma stats_data_rows_witness :
  filled example_data (range 2010 2016) /\
  exists rows,
    stats_data (fun q => q) example_data (range 2010 2016) = Returned rows /\
    Year <$> rows = range 2010 2016 /\
    Forall (fun row => Min row <= Max row) rows.
Proof.
  exact (conj example_data_filled
    (stats_data_rows (fun q => q) example_data (range 2010 2016) example_data_filled)).
Defined.

(** X21.  When the table is not built, the exception is [KeyError] for a
    year of the list the dict has no sample for, or numpy's [ValueError] for
    a year whose sample is empty. *)
Theorem stats_data_exception (sqrt : Q -> Q) (data_dict : gmap Z (list Q)) (years : list Z)
    (e : exception) :
  stats_data sqrt data_dict years = Raised e ->
  (exists year, year ∈ years /\ data_dict !! year = None /\ e = KeyError year) \/
  (exists year msg, year ∈ years /\ data_dict !! year = Some [] /\ e = ValueError msg).
Proof. apply stats_data_raised. Qed.

Lemma stats_data_exception_witness :
  stats_data (fun q => q) example_data [2010; 2016]%Z = Raised (KeyError 2016) /\
  ((exists year, year ∈ [2010; 2016]%Z /\ example_data !! year = None /\
      KeyError 2016 = KeyError year) \/
   (exists year msg, year ∈ [2010; 2016]%Z /\ example_data !! year = Some [] /\
      KeyError 2016 = ValueError msg)).
Proof.
  assert (H : stats_data (fun q => q) example_data [2010; 2016]%Z = Raised (KeyError 2016))
    by reflexivity.
  exact (conj H (stats_data_exception (fun q => q) example_data [2010; 2016]%Z _ H)).
Defined.

(** ** The generator under numpy's stream *)

(** X22.  Under numpy's generator, whatever state it is entered with: when
    [15 * vol] is at least 2, the reach of the jitter, no spread is negative
    in any period and the generator returns the six samples, for every size
    that is not negative and every trend.  The volatility slider of line 23
    offers 0.1 and then 0.2 and more: all its positions but the first are
    in this region. *)
Theorem generate_safe_volatility (polar_factor : Q -> Q) (n_obs : Z) (trend_str vol : Q)
    (s : mt19937.mt19937_state) :
  (0 <= n_obs)%Z -> 2 / 15 <= vol ->
  (forall i, 0 <= year_std (mt19937.legacy polar_factor) n_obs vol i) /\
  exists data,
    fst (generate_evolving_data (mt19937.legacy polar_factor) n_obs trend_str vol s)
    = Returned (data, range 2010 2016) /\
    forall year, (2010 <= year <= 2015)%Z ->
      exists values, data !! year = Some values /\ len values = n_obs.
Proof.
  intros Hn Hvol.
  assert (Hstd : forall i, 0 <= year_std (mt19937.legacy polar_factor) n_obs vol i).
  { intros i. by apply year_std_nonneg; [apply mt19937_facts.legacy_in_unit_interval|]. }
  split; [done|]. eexists. split; [by rewrite generate_returns|].
  intros year Hy.
  exists (sample (mt19937.legacy polar_factor) n_obs trend_str vol (Z.to_nat (year - 2010))).
  split.
  - replace year with (2010 + Z.of_nat (Z.to_nat (year - 2010)))%Z at 1 by lia.
    apply samples_upto_lookup. lia.
  - unfold len. rewrite sample_length. lia.
Qed.

Lemma generate_safe_volatility_witness :
  (0 <= 1000)%Z /\ 2 / 15 <= 0.2 /\
  (forall i, 0 <= year_std (mt19937.legacy (fun _ => 1)) 1000 0.2 i) /\
  exists data,
    fst (generate_evolving_data (mt19937.legacy (fun _ => 1)) 1000 0.5 0.2
           (mt19937.mt19937_seed 0))
    = Returned (data, range 2010 2016) /\
    forall year, (2010 <= year <= 2015)%Z ->
      exists values, data !! year = Some values /\ len values = 1000%Z.
Proof.
  assert (Hn : (0 <= 1000)%Z) by lia.
  assert (Hvol : 2 / 15 <= 0.2) by (by compute).
  exact (conj Hn (conj Hvol
    (generate_safe_volatility (fun _ => 1) 1000 0.5 0.2 (mt19937.mt19937_seed 0) Hn Hvol))).
Defined.

(** ** The generator and the summary table *)



(** X24.  What the generator returns for no observation, the summary table
    cannot list: building it raises numpy's [ValueError], at the least value
    of an empty sample. *)
Theorem generated_empty_data_not_summarised (G : np.random.RandomState) (trend_str vol : Q)
    (s : np.random.state G) (data : gmap Z (list Q)) (ys : list Z) (sqrt : Q -> Q) :
  fst (generate_evolving_data G 0 trend_str vol s) = Returned (data, ys) ->
  exists msg, stats_data sqrt data ys = Raised (ValueError msg).
Proof.
  intros Hgen. pose proof Hgen as (-> & -> & _ & _)%generate_returned_inv.
  assert (Hempty : forall year, year ∈ range 2010 2016 ->
                     samples_upto G 0 trend_str vol 6 !! year = Some []).
  { intros year [Hy1 Hy2]%elem_of_seqZ.
    replace year with (2010 + Z.of_nat (Z.to_nat (year - 2010)))%Z by lia.
    rewrite samples_upto_lookup by lia. f_equal.
    apply length_zero_iff_nil. by rewrite sample_length. }
  destruct (stats_data sqrt (samples_upto G 0 trend_str vol 6) (range 2010 2016))
    as [rows|e] eqn:Hstats.
  - apply stats_data_returned_inv in Hstats.
    destruct (Hstats 2010%Z) as (v & Hv & Hne); [by left|].
    rewrite Hempty in Hv by (by left). congruence.
  - apply stats_data_raised in Hstats
      as [(year & Hy & Hnone & ->)|(year & msg & _ & _ & ->)]; [|by eexists].
    rewrite Hempty in Hnone by done. done.
Qed.

Lemma generated_empty_data_not_summarised_witness :
  let G := mt19937.legacy (fun _ => 1) in
  fst (generate_evolving_data G 0 0.5 1 (mt19937.mt19937_seed 0)) =
    Returned (samples_upto G 0 0.5 1 6, range 2010 2016) /\
  exists msg,
    stats_data (fun q => q) (samples_upto G 0 0.5 1 6) (range 2010 2016)
    = Raised (ValueError msg).
Proof.
  intros G.
  assert (H : fst (generate_evolving_data G 0 0.5 1 (mt19937.mt19937_seed 0)) =
              Returned (samples_upto G 0 0.5 1 6, range 2010 2016)).
  { rewrite generate_returns; [reflexivity | lia |].
    intros j _.
    apply year_std_nonneg; [apply mt19937_facts.legacy_in_unit_interval | by compute]. }
  exact (conj H
    (generated_empty_data_not_summarised G 0.5 1 (mt19937.mt19937_seed 0) _ _ (fun q => q) H)).
Defined.

(** ** The script runner: a click while the animation runs *)

Section ScriptRunner.
Context (requested : list call -> bool).

Local Abbreviation cut := (cut requested).
Local Abbreviation runs_under := (runs_under requested).

Lemma cut_not_ended (page q : list call) :
  snd (cut page q) = false -> fst (cut page q) = page ++ q.
Proof.
  revert page. induction q as [|c q IH]; intros page; cbn.
  - by rewrite app_nil_r.
  - destruct (is_st c && requested page); [done|].
    intros H. rewrite (IH _ H), <- app_assoc. reflexivity.
Qed.

Lemma cut_app (page q1 q2 : list call) :
  cut page (q1 ++ q2) =
  if snd (cut page q1) then cut page q1 else cut (page ++ q1) q2.
Proof.
  revert page. induction q1 as [|c q1 IH]; intros page; cbn.
  - by rewrite app_nil_r.
  - destruct (is_st c && requested page); [done|].
    rewrite IH, <- app_assoc. reflexivity.
Qed.

(** What the runner lets through before it ends the run was called before
    the last call of the undisturbed run. *)
Lemma cut_ended_elem (page q : list call) (c : call) :
  snd (cut page q) = true -> c ∈ fst (cut page q) -> c ∈ page \/ c ∈ removelast q.
Proof.
  revert page. induction q as [|c' q IH]; intros page; cbn; [done|].
  destruct (is_st c' && requested page); [by left|].
  intros Hend Hin. destruct q as [|c'' q]; [done|].
  destruct (IH _ Hend Hin) as [[H|H%list_elem_of_singleton]%elem_of_app|H].
  - by left.
  - right. subst. by left.
  - right. by right.
Qed.

Lemma runs_under_ret {A} (a : A) : runs_under (mret a) (mret a).
Proof. intros page. exists []. by rewrite app_nil_r. Qed.

Lemma runs_under_lift {A} (o : outcome A) : runs_under (lift o) (lift o).
Proof. intros page. exists []. by rewrite app_nil_r. Qed.

Lemma runs_under_st (c : call) :
  is_st c = true -> runs_under (st requested c) (st no_request c).
Proof.
  intros Hc page. exists [c]. split; [done|].
  cbn. rewrite Hc. unfold st. by destruct (requested page).
Qed.

Lemma runs_under_do (c : call) : is_st c = false -> runs_under (do c) (do c).
Proof. intros Hc page. exists [c]. split; [done|]. cbn. by rewrite Hc. Qed.

Lemma runs_under_bind {A B} (m' m : py (list call) A) (f' f : A -> py (list call) B) :
  runs_under m' m -> (forall a, runs_under (f' a) (f a)) ->
  runs_under (m' ≫= f') (m ≫= f).
Proof.
  intros Hm Hf page. destruct (Hm page) as (q1 & Hq1 & Hm').
  unfold mbind, py_bind. rewrite Hm'.
  destruct (m page) as [[a|e] page1] eqn:Hrun; simpl in Hq1; subst page1.
  - destruct (Hf a (page ++ q1)) as (q2 & Hq2 & Hf').
    eexists (q1 ++ q2). split; [by rewrite Hq2, app_assoc|].
    rewrite cut_app. destruct (snd (cut page q1)) eqn:Hend; cbn [fst snd].
    + by rewrite Hend.
    + exact Hf'.
  - eexists q1. split; [done|]. by destruct (snd (cut page q1)).
Qed.

Lemma runs_under_for_in {A} (l : list A) (body' body : A -> py (list call) control) :
  (forall a, runs_under (body' a) (body a)) ->
  runs_under (for_in l body') (for_in l body).
Proof.
  intros Hbody. induction l as [|a l IH]; cbn [for_in]; [apply runs_under_ret|].
  apply runs_under_bind; [apply Hbody|].
  intros [|]; [exact IH | apply runs_under_ret].
Qed.

Lemma runs_under_mapM {A B} (l : list A) (g : A -> outcome B) :
  runs_under (mapM (fun a => lift (g a)) l) (mapM (fun a => lift (g a)) l).
Proof.
  induction l as [|a l IH]; cbn [mapM]; [apply runs_under_ret|].
  apply runs_under_bind; [apply runs_under_lift|]. intros b.
  apply runs_under_bind; [exact IH|]. intros k. apply runs_under_ret.
Qed.

Lemma frame_body_runs_under (data_dict : gmap Z (list Q)) (years : list Z)
    (n_observations : Z) (animation_speed : Q) (stop_animation : bool)
    (x_min x_max : Q) (iy : nat * Z) :
  runs_under
    (frame_body_under requested data_dict years n_observations animation_speed
       stop_animation x_min x_max iy)
    (frame_body data_dict years n_observations animation_speed stop_animation x_min x_max iy).
Proof.
  unfold frame_body, frame_body_under. destruct iy as [i year].
  destruct stop_animation; [apply runs_under_ret|].
  apply runs_under_bind; [by apply runs_under_st|]. intros _.
  apply runs_under_bind; [by apply runs_under_st|]. intros _.
  apply runs_under_bind; [apply runs_under_lift|]. intros current_data.
  apply runs_under_bind; [apply runs_under_lift|]. intros [x_cdf y_cdf].
  apply runs_under_bind; [apply runs_under_lift|]. intros markers.
  apply runs_under_bind; [by apply runs_under_st|]. intros _.
  apply runs_under_bind; [by apply runs_under_st|]. intros _.
  apply runs_under_bind; [by apply runs_under_do|]. intros _.
  apply runs_under_ret.
Qed.

(** The block under the runner is the undisturbed block, ended at the first
    Streamlit command at which a request is pending. *)
Lemma animation_runs_under (data_dict : gmap Z (list Q)) (years : list Z)
    (n_observations : Z) (animation_speed : Q) (start_animation stop_animation : bool) :
  runs_under
    (animation_under requested data_dict years n_observations animation_speed
       start_animation stop_animation)
    (animation data_dict years n_observations animation_speed start_animation stop_animation).
Proof.
  unfold animation, animation_under.
  destruct start_animation; [|apply runs_under_ret].
  apply runs_under_bind; [by apply runs_under_st|]. intros _.
  apply runs_under_bind; [by apply runs_under_st|]. intros _.
  apply runs_under_bind; [apply runs_under_mapM|]. intros arrays.
  apply runs_under_bind; [apply runs_under_lift|]. intros all_values.
  apply runs_under_bind; [apply runs_under_lift|]. intros lo.
  apply runs_under_bind; [apply runs_under_lift|]. intros hi.
  apply runs_under_bind.
  { apply runs_under_for_in. intros iy. apply frame_body_runs_under. }
  intros _.
  apply runs_under_bind; [by apply runs_under_st|]. intros _.
  apply runs_under_bind; [by apply runs_under_st|]. intros _.
  by apply runs_under_st.
Qed.

End ScriptRunner.

(** A request that arrives after [arrival] calls: the figures on the page
    when the runner ends the run are the figures among the first [arrival]
    calls of the undisturbed run. *)
Lemma cut_request_frame_years (arrival : nat) (page q : list call) :
  frame_years (fst (cut (request_at arrival) page q)) =
  frame_years page ++ frame_years (take (arrival - length page) q).
Proof.
  revert page. induction q as [|c q IH]; intros page; cbn [cut].
  - rewrite take_nil. cbn. by rewrite app_nil_r.
  - unfold request_at at 1.
    destruct (is_st c) eqn:Hc, (arrival <=? length page)%nat eqn:Hle; cbn [andb fst].
    + apply Nat.leb_le in Hle. replace (arrival - length page)%nat with 0%nat by lia.
      cbn. by rewrite app_nil_r.
    + apply Nat.leb_gt in Hle. rewrite IH, length_app, frame_years_app, <- app_assoc. cbn [length].
      replace (arrival - length page)%nat with (S (arrival - (length page + 1))) by lia.
      cbn [take].
      change (c :: take (arrival - (length page + 1)) q)
        with ([c] ++ take (arrival - (length page + 1)) q).
      by rewrite frame_years_app.
    + apply Nat.leb_le in Hle. rewrite IH, length_app, frame_years_app, <- app_assoc. cbn [length].
      replace (arrival - (length page + 1))%nat with 0%nat by lia.
      replace (arrival - length page)%nat with 0%nat by lia.
      by destruct c.
    + apply Nat.leb_gt in Hle. rewrite IH, length_app, frame_years_app, <- app_assoc. cbn [length].
      replace (arrival - length page)%nat with (S (arrival - (length page + 1))) by lia.
      cbn [take].
      change (c :: take (arrival - (length page + 1)) q)
        with ([c] ++ take (arrival - (length page + 1)) q).
      by rewrite frame_years_app.
Qed.

(** A request that has arrived by the last call of the undisturbed run, a
    Streamlit command, ends the run under the runner. *)
Lemma cut_request_ended (arrival : nat) (page q : list call) (c : call) :
  is_st c = true -> (arrival <= length page + length q)%nat ->
  snd (cut (request_at arrival) page (q ++ [c])) = true.
Proof.
  intros Hc Hle. rewrite cut_app.
  destruct (snd (cut (request_at arrival) page q)) eqn:Hend; [done|].
  cbn. rewrite Hc. unfold request_at. rewrite length_app.
  by apply Nat.leb_le in Hle as ->.
Qed.

Lemma frame_calls_not_success (years : list Z) (animation_speed : Q)
    (l : list (nat * Z)) (figs : list figure) (msg : string) :
  st_success msg ∉ concat (zip_with (frame_calls years animation_speed) l figs).
Proof.
  revert figs. induction l as [|iy l IH]; intros [|fig figs]; cbn; try apply not_elem_of_nil.
  intros Hin. repeat (apply elem_of_cons in Hin as [Hin|Hin]; [done|]).
  by apply (IH figs).
Qed.

(** A click that arrives while the block runs: the runner ends the run with
    [RerunException].  The page then shows the figures that were shown when
    the click arrived and no other, and no completion message. *)
Lemma request_ends_run (data_dict : gmap Z (list Q)) (years : list Z)
    (n_observations : Z) (animation_speed : Q) (arrival : nat) :
  years <> [] -> filled data_dict years ->
  (arrival <
   length (snd (animation data_dict years n_observations animation_speed true false [])))%nat ->
  exists page,
    animation_under (request_at arrival) data_dict years n_observations animation_speed
      true false [] = (Raised RerunException, page) /\
    frame_years page =
      frame_years (take arrival
        (snd (animation data_dict years n_observations animation_speed true false []))) /\
    forall msg, st_success msg ∉ page.
Proof.
  intros Hne Hf.
  destruct (animation_trace data_dict years n_observations animation_speed Hne Hf)
    as (lo & hi & figs & _ & _ & _ & Hrun).
  destruct (animation_runs_under (request_at arrival) data_dict years n_observations
              animation_speed true false []) as (q & Hq & Hunder).
  rewrite Hrun in Hq |- *. cbn [snd] in Hq |- *. rewrite app_nil_l in Hq. subst q.
  set (calls := concat (zip_with (frame_calls years animation_speed) (enumerate years) figs))
    in *.
  replace ([st_progress 0; st_empty] ++ calls
           ++ [progress_bar_empty; status_text_empty; st_success "🎉 Animation completed!"])
    with (([st_progress 0; st_empty] ++ calls ++ [progress_bar_empty; status_text_empty])
          ++ [st_success "🎉 Animation completed!"]) in *
    by (by rewrite <- !app_assoc).
  set (before := [st_progress 0; st_empty] ++ calls ++ [progress_bar_empty; status_text_empty])
    in *.
  intros Hlt. rewrite length_app in Hlt. cbn [length] in Hlt.
  assert (Hend : snd (cut (request_at arrival) [] (before ++ [st_success "🎉 Animation completed!"]))
                 = true) by (apply cut_request_ended; [done | cbn [length]; lia]).
  rewrite Hend in Hunder. eexists. split; [exact Hunder|]. split.
  - rewrite cut_request_frame_years. cbn [length frame_years omap list_omap app].
    by rewrite Nat.sub_0_r.
  - intros msg Hin.
    apply cut_ended_elem in Hin as [Hin|Hin]; [by apply elem_of_nil in Hin | | done].
    rewrite removelast_last in Hin. unfold before in Hin.
    apply elem_of_app in Hin as [Hin|[Hin|Hin]%elem_of_app].
    + repeat (apply elem_of_cons in Hin as [Hin|Hin]; [done|]). by apply elem_of_nil in Hin.
    + by apply frame_calls_not_success in Hin.
    + repeat (apply elem_of_cons in Hin as [Hin|Hin]; [done|]). by apply elem_of_nil in Hin.
Qed.

(** C6.  The animation of the six years, started with the stop flag clear,
    and a click on the stop button that arrives when three figures have
    been shown: by the time the click arrives the undisturbed run would have
    shown exactly three.  The runner ends the run with [RerunException] at
    the next Streamlit command.  The page shows exactly three figures, of
    2010, 2011 and 2012, never a fourth, and no completion message; and the
    run the click asks for, in which the start button reads [False], adds
    nothing to the page. *)
Theorem stop_after_third_frame (data_dict : gmap Z (list Q)) (n_observations : Z)
    (animation_speed : Q) (arrival : nat) :
  filled data_dict (range 2010 2016) ->
  length (frame_years (take arrival
    (snd (animation data_dict (range 2010 2016) n_observations animation_speed
            true false [])))) = 3%nat ->
  exists page,
    animation_under (request_at arrival) data_dict (range 2010 2016) n_observations
      animation_speed true false [] = (Raised RerunException, page) /\
    frame_years page = [2010; 2011; 2012]%Z /\
    length (frames page) = 3%nat /\
    (forall msg, st_success msg ∉ page) /\
    ~ announced_completion page /\
    forall requested,
      animation_under requested data_dict (range 2010 2016) n_observations animation_speed
        false true page = (Returned tt, page).
Proof.
  intros Hf Hthree.
  destruct (animation_run data_dict (range 2010 2016) n_observations animation_speed false)
    as (full & Hrun & Hfy & _ & _); [done | done |].
  rewrite Hrun in Hthree. cbn [snd] in Hthree.
  assert (Hlt : (arrival < length full)%nat).
  { destruct (decide (arrival < length full)%nat) as [|Hge]; [done|].
    rewrite take_ge, Hfy in Hthree by lia. done. }
  destruct (request_ends_run data_dict (range 2010 2016) n_observations animation_speed arrival)
    as (page & Hunder & Hshown & Hnone); [done | done | by rewrite Hrun |].
  rewrite Hrun in Hshown. cbn [snd] in Hshown.
  assert (Hpage : frame_years page = [2010; 2011; 2012]%Z).
  { rewrite Hshown.
    pose proof (f_equal frame_years (take_drop arrival full)) as Hsplit.
    rewrite frame_years_app, Hfy in Hsplit.
    apply (f_equal (take 3)) in Hsplit.
    rewrite take_app_length' in Hsplit by done. by rewrite Hsplit. }
  exists page. split; [exact Hunder|]. split; [exact Hpage|]. split; [|split; [exact Hnone|split]].
  - apply (f_equal length) in Hpage. cbn in Hpage. rewrite <- Hpage.
    unfold frame_years, frames. clear. induction page as [|[] page IH]; cbn; congruence.
  - unfold announced_completion. intros Hlast. apply (Hnone "🎉 Animation completed!").
    apply last_Some in Hlast as [before ->]. apply elem_of_app. right. by left.
  - reflexivity.
Qed.

Lemma stop_after_third_frame_witness :
  filled example_data (range 2010 2016) /\
  length (frame_years (take 17
    (snd (animation example_data (range 2010 2016) 3 1 true false [])))) = 3%nat /\
  exists page,
    animation_under (request_at 17) example_data (range 2010 2016) 3 1 true false []
      = (Raised RerunException, page) /\
    frame_years page = [2010; 2011; 2012]%Z /\
    length (frames page) = 3%nat /\
    (forall msg, st_success msg ∉ page) /\
    ~ announced_completion page /\
    forall requested,
      animation_under requested example_data (range 2010 2016) 3 1 false true page
        = (Returned tt, page).
Proof.
  assert (H : length (frame_years (take 17
                (snd (animation example_data (range 2010 2016) 3 1 true false [])))) = 3%nat)
    by (vm_compute; reflexivity).
  exact (conj example_data_filled (conj H
    (stop_after_third_frame example_data 3 1 17 example_data_filled H))).
Defined.
